(** * The in-memory ledger of [finance_ledger.py]

    A shallow embedding of the class [PersonalFinanceLedger]: its
    constructor, [_get_next_id], [add_transaction], [get_summary] and
    [get_transactions], followed by the properties the specification
    states about them.

    Python floats are binary64 numbers: they are modelled by the kernel's
    primitive floats, whose operations are specified by [FloatAxioms]
    against the executable model [SpecFloat].  Python integers are
    unbounded: they are modelled by [Z].  A transaction is a dictionary
    with text keys: it is modelled by stdpp's [gmap string value]. *)

From Stdlib Require Import ZArith Floats Ascii.
From stdpp Require Import gmap strings list fin_maps pretty.

Local Open Scope string_scope.
Local Open Scope list_scope.
Local Open Scope Z_scope.

(** ** Values and exceptions *)

(** What a transaction dictionary holds.  The source types it as
    [Dict[str, Union[str, float]]]; the id that [add_transaction] stores
    is an [int]. *)
Inductive value : Type :=
  | VStr (s : string)
  | VFloat (x : float)
  | VInt (n : Z).

(** The exceptions the modelled code can raise, with their message. *)
Inductive exn : Type :=
  | ValueError (msg : string)
  | OverflowError (msg : string).

Inductive result (A : Type) : Type :=
  | Ok (a : A)
  | Raise (e : exn).
Arguments Ok {A} a.
Arguments Raise {A} e.

(** [Transaction = Dict[str, Union[str, float]]] and
    [Ledger = List[Transaction]]. *)
Abbreviation Transaction := (gmap string value).
Abbreviation Ledger := (list Transaction).

(** The two attributes of a [PersonalFinanceLedger] object. *)
Record PersonalFinanceLedger : Type := mkLedger {
  transactions : Ledger;
  transaction_id_counter : Z
}.

(** ** Methods as state transformers

    A method runs on the object's state and either returns a value or
    raises; in both cases it hands back the state it left behind, so that
    a mutation made before a [raise] would remain visible. *)
Definition M (A : Type) : Type :=
  PersonalFinanceLedger -> result A * PersonalFinanceLedger.

Definition ret {A} (a : A) : M A := fun self => (Ok a, self).

Definition bind {A B} (m : M A) (k : A -> M B) : M B :=
  fun self =>
    match m self with
    | (Ok a, self') => k a self'
    | (Raise e, self') => (Raise e, self')
    end.

Definition raise {A} (e : exn) : M A := fun self => (Raise e, self).

Definition get_self : M PersonalFinanceLedger := fun self => (Ok self, self).

Definition set_counter (n : Z) : M unit :=
  fun self => (Ok tt, mkLedger (transactions self) n).

(** [self.transactions.append(tx)] *)
Definition append_transaction (tx : Transaction) : M unit :=
  fun self =>
    (Ok tt, mkLedger (transactions self ++ [tx]) (transaction_id_counter self)).

(** stdpp's monad notations: [x ← m; k] and [m;; k]. *)
#[global] Instance M_ret : MRet M := @ret.
#[global] Instance M_bind : MBind M := fun A B k m => bind m k.

(** ** The class *)

(** [__init__]: the given list (or a fresh empty one) and a counter that
    always starts at 1. *)
Definition __init__ (initial_transactions : option Ledger) : PersonalFinanceLedger :=
  mkLedger
    (match initial_transactions with
     | Some txs => txs
     | None => []
     end)
    1.

Definition _get_next_id : M Z :=
  self ← get_self;
  let next_id := transaction_id_counter self in
  set_counter (transaction_id_counter self + 1);;
  mret next_id.

Definition add_transaction (type : string) (amount : float)
    (description category : string) : M Transaction :=
  if (amount <=? 0)%float then
    raise (ValueError "Amount must be a positive number.")
  else
    next_id ← _get_next_id;
    let transaction : Transaction :=
      {[ "id" := VInt next_id;
         "type" := VStr type;
         "amount" := VFloat amount;
         "description" := VStr description;
         "category" := VStr category ]} in
    append_transaction transaction;;
    mret transaction.

Definition get_transactions : M Ledger :=
  self ← get_self; mret (transactions self).

(** ** The runtime's numeric primitives

    [get_summary] calls two built-ins of the language, [float] and
    [round]; they are modelled here on the binary64 format. *)

#[global] Instance result_ret : MRet result := @Ok.
#[global] Instance result_bind : MBind result := fun A B k r =>
  match r with
  | Ok a => k a
  | Raise e => Raise e
  end.

(** A result computed without touching the object, used inside a method. *)
Definition lift {A} (r : result A) : M A := fun self => (r, self).

(** The integer nearest to [m * 2^e], the even one on a tie. *)
Definition round_half_even (m e : Z) : Z :=
  if 0 <=? e then m * 2 ^ e
  else
    let d := 2 ^ (- e) in
    let q := m / d in
    match 2 * (m mod d) ?= d with
    | Lt => q
    | Eq => if Z.even q then q else q + 1
    | Gt => q + 1
    end.

(** [round(x, 2)].  NaN, the infinities and the zeros round to
    themselves.  A finite [x = ± m * 2^e] is first rounded, on its exact
    value and with ties to even, to a decimal with two digits after the
    point, [n / 100]; the result is the binary64 number nearest to that
    decimal, with the sign of [x], and an [OverflowError] when it is too
    large to represent.  When [0 <= e] the value of [x] is an integer, so
    the decimal is [x] itself. *)
Definition py_round2 (x : float) : result float :=
  match Prim2SF x with
  | S754_finite s m e =>
      if 0 <=? e then Ok x
      else
        match round_half_even (Z.pos m * 100) e with
        | Z.pos n =>
            match SFdiv prec emax (S754_finite s n 0) (S754_finite false 100 0) with
            | S754_infinity _ =>
                Raise (OverflowError "rounded value too large to represent")
            | f => Ok (SF2Prim f)
            end
        | _ => Ok (SF2Prim (S754_zero s))
        end
  | _ => Ok x
  end.

Section Runtime.

(** [float(s)] for a text [s]: the value of the numeric literal it
    spells, or a [ValueError].  The parser belongs to the language runtime
    and is a parameter of the development. *)
Variable float_of_str : string -> result float.

(** [float(v)].  A float is returned as it is; an integer is converted to
    the nearest binary64 number (ties to even), and is refused when that
    number would be infinite. *)
Definition py_float (v : value) : result float :=
  match v with
  | VFloat x => Ok x
  | VInt n =>
      match binary_normalize prec emax n 0 false with
      | S754_infinity _ => Raise (OverflowError "int too large to convert to float")
      | f => Ok (SF2Prim f)
      end
  | VStr s => float_of_str s
  end.

(** [v == s] for a text constant [s]: a number never equals a text. *)
Definition py_eq_str (v : value) (s : string) : bool :=
  match v with
  | VStr s' => bool_decide (s' = s)
  | _ => false
  end.

(** One turn of the loop of [get_summary], on the pair of running
    totals. *)
Definition summary_step (totals : float * float) (tx : Transaction)
    : result (float * float) :=
  let '(total_income, total_expense) := totals in
  let tx_type := default (VStr "Expense") (tx !! "type") in
  let tx_amount := default (VFloat 0) (tx !! "amount") in
  if py_eq_str tx_type "Income" then
    x ← py_float tx_amount; Ok ((total_income + x)%float, total_expense)
  else if py_eq_str tx_type "Expense" then
    x ← py_float tx_amount; Ok (total_income, (total_expense + x)%float)
  else Ok (total_income, total_expense).

(** [for tx in self.transactions: ...] *)
Fixpoint summary_loop (txs : Ledger) (totals : float * float)
    : result (float * float) :=
  match txs with
  | [] => Ok totals
  | tx :: rest => totals' ← summary_step totals tx; summary_loop rest totals'
  end.

Definition get_summary : M (gmap string float) :=
  self ← get_self;
  totals ← lift (summary_loop (transactions self) (0%float, 0%float));
  let total_income := totals.1 in
  let total_expense := totals.2 in
  let net_balance := (total_income - total_expense)%float in
  r_income ← lift (py_round2 total_income);
  r_expense ← lift (py_round2 total_expense);
  r_net ← lift (py_round2 net_balance);
  mret ({[ "total_income" := r_income;
           "total_expense" := r_expense;
           "net_balance" := r_net ]} : gmap string float).

End Runtime.

(** ** Callers

    The command-line front end calls [add_transaction] once per request
    and catches what it raises, so a ledger lives through a sequence of
    calls of which some succeed and some fail. *)

Record add_args : Type := AddArgs {
  arg_type : string;
  arg_amount : float;
  arg_description : string;
  arg_category : string
}.

Definition call_add (a : add_args) : M Transaction :=
  add_transaction (arg_type a) (arg_amount a) (arg_description a) (arg_category a).

(** The outcome of every call, in order, and the ledger left at the end. *)
Fixpoint run_adds (calls : list add_args) (self : PersonalFinanceLedger)
    : list (result Transaction) * PersonalFinanceLedger :=
  match calls with
  | [] => ([], self)
  | a :: rest =>
      let '(r, self') := call_add a self in
      let '(rs, self'') := run_adds rest self' in
      (r :: rs, self'')
  end.

(** The transactions returned by the calls that did not raise. *)
Fixpoint successes (rs : list (result Transaction)) : list Transaction :=
  match rs with
  | [] => []
  | Ok tx :: rest => tx :: successes rest
  | Raise _ :: rest => successes rest
  end.

(** A ledger created without initial transactions and then only grown
    through [add_transaction]. *)
Definition grown_from_empty (self : PersonalFinanceLedger) : Prop :=
  exists calls, self = (run_adds calls (__init__ None)).2.

(** ** Reading a stored transaction *)

(** The dictionary [add_transaction] builds for a given id. *)
Definition transaction_record (id : Z) (type : string) (amount : float)
    (description category : string) : Transaction :=
  {[ "id" := VInt id;
     "type" := VStr type;
     "amount" := VFloat amount;
     "description" := VStr description;
     "category" := VStr category ]}.

Definition tx_id (tx : Transaction) : option Z :=
  match tx !! "id" with
  | Some (VInt n) => Some n
  | _ => None
  end.

Definition tx_amount (tx : Transaction) : option float :=
  match tx !! "amount" with
  | Some (VFloat x) => Some x
  | _ => None
  end.

Definition tx_kind (tx : Transaction) : option string :=
  match tx !! "type" with
  | Some (VStr k) => Some k
  | _ => None
  end.

(** ** Sequences of calls, by what they store *)

(** Whether [add_transaction] lets a call through. *)
Definition accepted (a : add_args) : bool := negb (arg_amount a <=? 0)%float.

(** The records the accepted calls produce when ids are handed out from
    [n] on. *)
Fixpoint records_from (n : Z) (calls : list add_args) : list Transaction :=
  match calls with
  | [] => []
  | a :: rest =>
      if accepted a then
        transaction_record n (arg_type a) (arg_amount a)
          (arg_description a) (arg_category a)
        :: records_from (n + 1) rest
      else records_from n rest
  end.

(** Whether a method call raised. *)
Definition raised {A} (r : result A) : bool :=
  match r with
  | Ok _ => false
  | Raise _ => true
  end.

(** ** The summary, by what it counts *)

(** A stored dictionary that has the shape of the records
    [add_transaction] builds: a text under "type" and a float under
    "amount". *)
Definition is_record (tx : Transaction) : Prop :=
  is_Some (tx_kind tx) /\ is_Some (tx_amount tx).

(** The amount of [tx] when its kind is [kind]. *)
Definition counted (kind : string) (tx : Transaction) : option float :=
  if bool_decide (tx_kind tx = Some kind) then tx_amount tx else None.

(** The amounts of the transactions of one kind, in insertion order. *)
Definition amounts_of (kind : string) (txs : Ledger) : list float :=
  omap (counted kind) txs.

(** Their sum, accumulated from 0.0 in that order. *)
Definition float_sum (xs : list float) : float := foldl PrimFloat.add 0%float xs.

(** ** Any dictionary, as [get_summary] reads it *)

(** [tx.get("type", "Expense")] and [tx.get("amount", 0.0)]. *)
Definition kind_or_default (tx : Transaction) : value :=
  default (VStr "Expense") (tx !! "type").

Definition amount_or_default (tx : Transaction) : value :=
  default (VFloat 0) (tx !! "amount").

(** Whether the loop adds [tx] to one of the two totals. *)
Definition is_counted (tx : Transaction) : bool :=
  py_eq_str (kind_or_default tx) "Income"
  || py_eq_str (kind_or_default tx) "Expense".

(** The amount the loop adds to the total of [kind] for [tx], when [tx]
    is read as of that kind and [float] accepts its amount. *)
Definition counted_amount (float_of_str : string -> result float)
    (kind : string) (tx : Transaction) : option float :=
  if py_eq_str (kind_or_default tx) kind then
    match py_float float_of_str (amount_or_default tx) with
    | Ok x => Some x
    | Raise _ => None
    end
  else None.

(** A dictionary the loop gets past: not counted, or with an amount that
    [float] accepts. *)
Definition convertible (float_of_str : string -> result float)
    (tx : Transaction) : Prop :=
  is_counted tx = true ->
  exists x, py_float float_of_str (amount_or_default tx) = Ok x.

(** The dictionary [get_summary] returns for a pair of unrounded totals. *)
Definition summary_of_totals (total_income total_expense : float)
    : result (gmap string float) :=
  r_income ← py_round2 total_income;
  r_expense ← py_round2 total_expense;
  r_net ← py_round2 (total_income - total_expense);
  Ok ({[ "total_income" := r_income;
         "total_expense" := r_expense;
         "net_balance" := r_net ]} : gmap string float).

(** ** Sample data *)

(** A record whose amount is below zero, as a caller may pass it to the
    constructor. *)
Definition overdraft : Transaction :=
  transaction_record 1 "Expense" (-5) "Bad" "Test".

(** A well-formed record, as a caller may hand it to the constructor. *)
Definition saved : Transaction :=
  transaction_record 1 "Income" 50 "Salary" "Work".

(** A record whose amount is an integer too large for binary64. *)
Definition oversized : Transaction :=
  {[ "id" := VInt 1; "type" := VStr "Income"; "amount" := VInt (10 ^ 400) ]}.

(** Two calls that both succeed. *)
Definition two_calls : list add_args :=
  [ AddArgs "Expense" 25 "Groceries" "Food";
    AddArgs "Income" 100 "Bonus" "Salary" ].

(** Three calls of which the second is refused. *)
Definition three_calls : list add_args :=
  [ AddArgs "Expense" 25 "Groceries" "Food";
    AddArgs "Expense" (-5) "Bad" "Test";
    AddArgs "Income" 100 "Bonus" "Salary" ].

(** Two calls whose amounts round to the same value. *)
Definition near_one : list add_args :=
  [ AddArgs "Income" 1.00390625 "Refund" "Misc";
    AddArgs "Expense" 0.99609375 "Coffee" "Food" ].

(** A record of a kind the summary does not know, one without a type and
    one without an amount. *)
Definition transfer : Transaction :=
  transaction_record 7 "Transfer" 40 "To savings" "Bank".

Definition untyped : Transaction :=
  {[ "id" := VInt 8; "amount" := VFloat 12.5 ]}.

Definition unpriced : Transaction :=
  {[ "id" := VInt 9; "type" := VStr "Income" ]}.

(** A runtime whose [float] refuses every text.  It stands for the
    parser where no stored amount is a text, so that the parser is never
    called. *)
Definition refuse_text : string -> result float :=
  fun _ => Raise (ValueError "could not convert string to float").

(** A ledger of dictionaries of every sort: a record, one without a type,
    one of an unknown kind with a text amount, one without an amount and
    one with an integer amount. *)
Definition mixed_ledger : PersonalFinanceLedger :=
  mkLedger
    [ saved; untyped;
      {[ "type" := VStr "Transfer"; "amount" := VStr "n/a" ]};
      unpriced;
      {[ "type" := VStr "Expense"; "amount" := VInt 3 ]} ]
    1.

(** * The command-line front end

    The functions [_format_transaction], [cli_add_transaction],
    [cli_view_transactions], [cli_get_summary] and [main].  They print:
    the console is the list of the texts handed to [print], oldest
    first, each of which the runtime follows with a line break. *)

(** ** Text primitives of the runtime

    A text is modelled by its UTF-8 encoding. *)

Definition esc : string := String (Ascii.ascii_of_nat 27) "".
Definition nl : string := String (Ascii.ascii_of_nat 10) "".
Definition tab : string := String (Ascii.ascii_of_nat 9) "".

(** Whether a byte continues a character begun by an earlier byte. *)
Definition is_continuation (c : Ascii.ascii) : bool :=
  (128 <=? Ascii.nat_of_ascii c)%nat && (Ascii.nat_of_ascii c <? 192)%nat.

(** [len(s)]: the number of characters. *)
Fixpoint py_len (s : string) : nat :=
  match s with
  | EmptyString => 0
  | String c rest => ((if is_continuation c then 0 else 1) + py_len rest)%nat
  end.

Fixpoint spaces (n : nat) : string :=
  match n with
  | O => ""
  | S n' => String " "%char (spaces n')
  end.

(** [s.ljust(width)]: [s] followed by spaces up to [width] characters. *)
Definition ljust (s : string) (width : nat) : string :=
  s +:+ spaces (width - py_len s).

Definition two_digits (n : Z) : string :=
  if n <? 10 then "0" +:+ pretty n else pretty n.

(** The decimal writing of [n / 100] with two digits after the point, for
    [0 <= n]. *)
Definition fixed2 (n : Z) : string :=
  pretty (n / 100) +:+ "." +:+ two_digits (n mod 100).

Definition sign_text (s : bool) : string := if s then "-" else "".

(** [format(x, ".2f")]: the exact value of [x] rounded to two digits
    after the point, ties to even, behind a minus sign when the sign bit
    of [x] is set. *)
Definition format_2f (x : float) : string :=
  match Prim2SF x with
  | S754_nan => "nan"
  | S754_infinity s => sign_text s +:+ "inf"
  | S754_zero s => sign_text s +:+ "0.00"
  | S754_finite s m e =>
      sign_text s +:+ fixed2 (round_half_even (Z.pos m * 100) e)
  end.

Definition upper_ascii (c : Ascii.ascii) : Ascii.ascii :=
  let n := Ascii.nat_of_ascii c in
  if (97 <=? n)%nat && (n <=? 122)%nat then Ascii.ascii_of_nat (n - 32) else c.

Definition lower_ascii (c : Ascii.ascii) : Ascii.ascii :=
  let n := Ascii.nat_of_ascii c in
  if (65 <=? n)%nat && (n <=? 90)%nat then Ascii.ascii_of_nat (n + 32) else c.

Fixpoint lower_text (s : string) : string :=
  match s with
  | EmptyString => ""
  | String c rest => String (lower_ascii c) (lower_text rest)
  end.

(** [s.capitalize()] on a text of ASCII characters: the first one in
    upper case, the others in lower case. *)
Definition capitalize (s : string) : string :=
  match s with
  | EmptyString => ""
  | String c rest => String (upper_ascii c) (lower_text rest)
  end.

(** ** Exceptions and the console *)

(** What the front end can see raised: the exceptions of the ledger, a
    missing key and a method asked of a value that has none. *)
Inductive error : Type :=
  | Builtin (e : exn)
  | KeyError (key : string)
  | AttributeError (msg : string).

(** [str(e)]: the message, and for a missing key the key between
    quotes. *)
Definition error_text (e : error) : string :=
  match e with
  | Builtin (ValueError msg) => msg
  | Builtin (OverflowError msg) => msg
  | KeyError key => "'" +:+ key +:+ "'"
  | AttributeError msg => msg
  end.

Inductive outcome (A : Type) : Type :=
  | Done (a : A)
  | Failed (e : error).
Arguments Done {A} a.
Arguments Failed {A} e.

#[global] Instance outcome_ret : MRet outcome := @Done.
#[global] Instance outcome_bind : MBind outcome := fun A B k r =>
  match r with
  | Done a => k a
  | Failed e => Failed e
  end.

Definition of_result {A} (r : result A) : outcome A :=
  match r with
  | Ok a => Done a
  | Raise e => Failed (Builtin e)
  end.

(** The ledger object the functions are handed, and what was printed. *)
Record world : Type := mkWorld {
  ledger : PersonalFinanceLedger;
  stdout : list string
}.

Definition CLI (A : Type) : Type := world -> outcome A * world.

#[global] Instance CLI_ret : MRet CLI := fun A a w => (Done a, w).
#[global] Instance CLI_bind : MBind CLI := fun A B k m w =>
  match m w with
  | (Done a, w') => k a w'
  | (Failed e, w') => (Failed e, w')
  end.

(** [print(s)] *)
Definition print (s : string) : CLI unit :=
  fun w => (Done tt, mkWorld (ledger w) (stdout w ++ [s])).

(** A method called on [ledger]. *)
Definition call {A} (m : M A) : CLI A :=
  fun w =>
    let '(r, self') := m (ledger w) in
    (of_result r, mkWorld self' (stdout w)).

(** A value computed without printing. *)
Definition pure {A} (r : outcome A) : CLI A := fun w => (r, w).

(** [try: body except ...: handler]: what the body did before it raised
    stays done. *)
Definition try_except {A} (body : CLI A) (handler : error -> CLI A) : CLI A :=
  fun w =>
    match body w with
    | (Done a, w') => (Done a, w')
    | (Failed e, w') => handler e w'
    end.

(** [d[key]] *)
Definition subscript {V} (d : gmap string V) (key : string) : outcome V :=
  match d !! key with
  | Some v => Done v
  | None => Failed (KeyError key)
  end.

(** [v.ljust(width)]: only a text has the method. *)
Definition ljust_method (v : value) (width : nat) : outcome string :=
  match v with
  | VStr s => Done (ljust s width)
  | VFloat _ => Failed (AttributeError "'float' object has no attribute 'ljust'")
  | VInt _ => Failed (AttributeError "'int' object has no attribute 'ljust'")
  end.

(** What the parser built in [main] hands over.  The type of an "add"
    request is one of the two [choices]; the amount is still a text. *)
Inductive type_choice : Type := income | expense.

Definition choice_text (c : type_choice) : string :=
  match c with
  | income => "income"
  | expense => "expense"
  end.

Record add_namespace : Type := AddNamespace {
  ns_type : type_choice;
  ns_amount : string;
  ns_description : string;
  ns_category : string
}.

(** The three subcommands, of which one is required. *)
Inductive namespace : Type :=
  | NsAdd (args : add_namespace)
  | NsView
  | NsSummary.

Section FrontEnd.

Variable float_of_str : string -> result float.

(** [str(x)] for a float [x]: the shortest decimal text that reads back
    as [x].  It belongs to the language runtime and is a parameter of the
    development. *)
Variable str_of_float : float -> string.

(** A value placed in an f-string without a format. *)
Definition py_str (v : value) : string :=
  match v with
  | VStr s => s
  | VInt n => pretty n
  | VFloat x => str_of_float x
  end.

Definition _format_transaction (tx : Transaction) : outcome string :=
  type_value ← subscript tx "type";
  let sign := if py_eq_str type_value "Income" then "+" else "-" in
  let color_code :=
    if py_eq_str type_value "Income" then esc +:+ "[92m" else esc +:+ "[91m" in
  let reset_code := esc +:+ "[0m" in
  amount_value ← of_result (py_float float_of_str (amount_or_default tx));
  id_value ← subscript tx "id";
  type_text ← ljust_method type_value 7;
  category_value ← subscript tx "category";
  category_text ← ljust_method category_value 12;
  description_value ← subscript tx "description";
  Done ("ID: " +:+ py_str id_value +:+ " | "
        +:+ "Type: " +:+ type_text +:+ " | "
        +:+ "Category: " +:+ category_text +:+ " | "
        +:+ "Amount: " +:+ color_code +:+ sign +:+ "$"
        +:+ format_2f amount_value +:+ reset_code +:+ " | "
        +:+ "Description: " +:+ py_str description_value).

Definition cli_add_transaction (args : add_namespace) : CLI unit :=
  try_except
    (amount_float ← pure (of_result (float_of_str (ns_amount args)));
     let tx_type := capitalize (choice_text (ns_type args)) in
     if bool_decide (tx_type ∉ ["Income"; "Expense"]) then
       print ("Error: Invalid type '" +:+ choice_text (ns_type args)
              +:+ "'. Must be 'income' or 'expense'.")
     else
       new_tx ← call (add_transaction tx_type amount_float
                        (ns_description args) (ns_category args));
       print (nl +:+ "✅ Transaction added successfully!");;
       line ← pure (_format_transaction new_tx);
       print line)
    (fun e =>
       match e with
       | Builtin (ValueError msg) =>
           print (nl +:+ "❌ Error adding transaction: " +:+ msg)
       | _ =>
           print (nl +:+ "❌ An unexpected error occurred: " +:+ error_text e)
       end).

(** [for tx in transactions: print(_format_transaction(tx))] *)
Fixpoint print_transactions (txs : Ledger) : CLI unit :=
  match txs with
  | [] => mret tt
  | tx :: rest =>
      line ← pure (_format_transaction tx);
      print line;;
      print_transactions rest
  end.

Definition cli_view_transactions : CLI unit :=
  transactions ← call get_transactions;
  match transactions with
  | [] =>
      print (nl +:+ tab
             +:+ "The ledger is empty. Use 'add' to record a transaction.")
  | _ =>
      print (nl +:+ "--- Transaction History ---");;
      print_transactions transactions;;
      print ("---------------------------" +:+ nl)
  end.

Definition cli_get_summary : CLI unit :=
  summary ← call (get_summary float_of_str);
  let green := esc +:+ "[92m" in
  let red := esc +:+ "[91m" in
  let blue := esc +:+ "[94m" in
  let reset := esc +:+ "[0m" in
  net_balance ← pure (subscript summary "net_balance");
  let net_color := if (0 <=? net_balance)%float then green else red in
  print (nl +:+ "--- Financial Summary ---");;
  total_income ← pure (subscript summary "total_income");
  print ("Total Income:  " +:+ green +:+ "$" +:+ format_2f total_income +:+ reset);;
  total_expense ← pure (subscript summary "total_expense");
  print ("Total Expense: " +:+ red +:+ "-$" +:+ format_2f total_expense +:+ reset);;
  net_balance' ← pure (subscript summary "net_balance");
  print ("Net Balance:   " +:+ blue +:+ net_color +:+ "$"
         +:+ format_2f net_balance' +:+ reset);;
  print ("---------------------------" +:+ nl).

(** [args.func(ledger, args)] *)
Definition dispatch (args : namespace) : CLI unit :=
  match args with
  | NsAdd a => cli_add_transaction a
  | NsView => cli_view_transactions
  | NsSummary => cli_get_summary
  end.

(** [main], from the point where [parser.parse_args()] has returned
    [args]: a new ledger, then the function of the subcommand. *)
Definition main (args : namespace) : CLI unit :=
  fun w => dispatch args (mkWorld (__init__ None) (stdout w)).

End FrontEnd.

(** ** Sequences of requests, by what they print and store *)

Section FrontEndRuns.

Variable float_of_str : string -> result float.
Variable str_of_float : float -> string.

(** One "add" request after the other on the same ledger. *)
Fixpoint run_cli_adds (requests : list add_namespace) (w : world) : world :=
  match requests with
  | [] => w
  | args :: rest =>
      run_cli_adds rest
        (cli_add_transaction float_of_str str_of_float args w).2
  end.

(** The call of [add_transaction] a request leads to, when the text of
    its amount is a number. *)
Definition request_call (args : add_namespace) : option add_args :=
  match float_of_str (ns_amount args) with
  | Ok amount =>
      Some (AddArgs (capitalize (choice_text (ns_type args))) amount
              (ns_description args) (ns_category args))
  | Raise _ => None
  end.

(** A dictionary that [_format_transaction] turns into a line. *)
Definition printable (tx : Transaction) : Prop :=
  exists line, _format_transaction float_of_str str_of_float tx = Done line.

(** The lines of the dictionaries that have one. *)
Definition formatted (txs : Ledger) : list string :=
  omap (fun tx =>
          match _format_transaction float_of_str str_of_float tx with
          | Done line => Some line
          | Failed _ => None
          end) txs.

End FrontEndRuns.

(** A runtime whose [str] of a float is never asked for: it stands where
    no id and no description is a float. *)
Definition no_float_text : float -> string := fun _ => "".

(** * Lemmas *)

(** ** Comparisons with zero on binary64 *)

Module Float64.

Lemma Prim2SF_zero : Prim2SF 0 = S754_zero false.
Proof. reflexivity. Qed.

Lemma leb_zero (a : float) :
  (a <=? 0)%float = SFleb (Prim2SF a) (S754_zero false).
Proof. now rewrite FloatAxioms.leb_spec, Prim2SF_zero. Qed.

Lemma zero_ltb (a : float) :
  (0 <? a)%float = SFltb (S754_zero false) (Prim2SF a).
Proof. now rewrite FloatAxioms.ltb_spec, Prim2SF_zero. Qed.

Lemma is_nan_spec (a : float) :
  is_nan a = negb (SFeqb (Prim2SF a) (Prim2SF a)).
Proof. unfold is_nan. now rewrite FloatAxioms.eqb_spec. Qed.

(** A positive number is not below or at zero. *)
Lemma positive_passes (a : float) :
  (0 <? a)%float = true -> (a <=? 0)%float = false.
Proof.
  intros H. rewrite zero_ltb in H. rewrite leb_zero.
  destruct (Prim2SF a) as [[]|[]| |[] m e]; cbn in *; congruence.
Qed.

(** What passes the test [a <= 0] is positive or is NaN. *)
Lemma passes_positive_or_nan (a : float) :
  (a <=? 0)%float = false -> (0 <? a)%float = true \/ is_nan a = true.
Proof.
  intros H. rewrite leb_zero in H. rewrite zero_ltb, is_nan_spec.
  destruct (Prim2SF a) as [[]|[]| |[] m e]; cbn in *; try congruence; auto.
Qed.

(** *** [round] never overflows *)

Lemma digits2_pos_size (p : positive) : digits2_pos p = Pos.size p.
Proof. induction p; cbn; congruence. Qed.

Lemma pos_lt_pow_digits (p : positive) : Z.pos p < 2 ^ Z.pos (digits2_pos p).
Proof.
  rewrite digits2_pos_size. pose proof (Pos.size_gt p) as H.
  apply Pos2Z.pos_lt_pos in H. now rewrite Pos2Z.inj_pow in H.
Qed.

Lemma pow_digits_le (p : positive) : 2 ^ Z.pos (digits2_pos p) <= 2 * Z.pos p.
Proof.
  rewrite digits2_pos_size. pose proof (Pos.size_le p) as H.
  apply Pos2Z.pos_le_pos in H. now rewrite Pos2Z.inj_pow in H.
Qed.

Lemma Zdigits2_le (m k : Z) : 0 <= m < 2 ^ k -> 0 <= k -> Zdigits2 m <= k.
Proof.
  intros [Hm Hlt] Hk. destruct m as [|p|p]; cbn; [lia| |lia].
  pose proof (pow_digits_le p) as Hp.
  assert (H : 2 ^ Z.pos (digits2_pos p) < 2 ^ (k + 1)).
  { rewrite Z.pow_add_r, Z.pow_1_r by lia. lia. }
  apply Z.pow_lt_mono_r_iff in H; lia.
Qed.

Lemma Zdigits2_nonneg (m : Z) : 0 <= Zdigits2 m.
Proof. destruct m; cbn; lia. Qed.

Lemma shr_1_bounds (mrs : shr_record) :
  0 <= shr_m mrs -> 0 <= shr_m (shr_1 mrs) <= shr_m mrs.
Proof. destruct mrs as [[|[p|p|]|p] r s]; cbn; lia. Qed.

Lemma iter_shr_1_bounds (p : positive) (mrs : shr_record) :
  0 <= shr_m mrs -> 0 <= shr_m (SpecFloat.iter_pos shr_1 p mrs) <= shr_m mrs.
Proof.
  revert mrs. induction p as [p IH|p IH|]; intros mrs Hm; cbn.
  - pose proof (shr_1_bounds mrs Hm) as H1.
    pose proof (IH (shr_1 mrs) ltac:(lia)) as H2.
    pose proof (IH (SpecFloat.iter_pos shr_1 p (shr_1 mrs)) ltac:(lia)). lia.
  - pose proof (IH mrs Hm) as H1.
    pose proof (IH (SpecFloat.iter_pos shr_1 p mrs) ltac:(lia)). lia.
  - now apply shr_1_bounds.
Qed.

Lemma shr_m_of_loc (m : Z) (l : location) : shr_m (shr_record_of_loc m l) = m.
Proof. now destruct l as [|[]]. Qed.

(** The result of [shr_fexp]: a mantissa that did not grow, and an
    exponent that is the given one or the canonical one. *)
Lemma shr_fexp_bounds (m e : Z) (l : location) :
  0 <= m ->
  0 <= shr_m (shr_fexp prec emax m e l).1 <= m
  /\ ((shr_fexp prec emax m e l).2 = e
      \/ (shr_fexp prec emax m e l).2 = fexp prec emax (Zdigits2 m + e)).
Proof.
  intros Hm. unfold shr_fexp, shr.
  destruct (fexp prec emax (Zdigits2 m + e) - e) as [|p|p] eqn:Hk; cbn.
  - rewrite shr_m_of_loc. split; [lia | by left].
  - pose proof (iter_shr_1_bounds p (shr_record_of_loc m l)) as H.
    rewrite shr_m_of_loc in H. split; [by apply H | right; lia].
  - rewrite shr_m_of_loc. split; [lia | by left].
Qed.

Lemma round_nearest_even_bounds (m : Z) (l : location) :
  0 <= m -> 0 <= round_nearest_even m l <= m + 1.
Proof. intros Hm. destruct l as [|[]]; cbn; try destruct (Z.even m); lia. Qed.

(** Rounding a mantissa below [2^60] at an exponent that is not positive
    never overflows. *)
Lemma binary_round_aux_finite (s : bool) (m e : Z) (l : location) :
  0 <= m < 2 ^ 60 -> e <= 0 ->
  forall s', binary_round_aux prec emax s m e l <> S754_infinity s'.
Proof.
  intros [Hm Hlt] He s'. unfold binary_round_aux.
  pose proof (shr_fexp_bounds m e l Hm) as [Hm1 He1].
  destruct (shr_fexp prec emax m e l) as [mrs1 e1]. cbn in Hm1, He1.
  pose proof (Zdigits2_le m 60 ltac:(lia) ltac:(lia)) as Hd.
  pose proof (Zdigits2_nonneg m) as Hd0.
  assert (He1' : e1 <= 7).
  { destruct He1 as [->| ->]; [lia|]. unfold fexp, emin, prec, emax. lia. }
  pose proof (round_nearest_even_bounds (shr_m mrs1) (loc_of_shr_record mrs1)
                ltac:(lia)) as Hm2.
  set (m2 := round_nearest_even (shr_m mrs1) (loc_of_shr_record mrs1)) in *.
  pose proof (shr_fexp_bounds m2 e1 loc_Exact ltac:(lia)) as [Hm3 He2].
  destruct (shr_fexp prec emax m2 e1 loc_Exact) as [mrs2 e2]. cbn in Hm3, He2.
  pose proof (Zdigits2_le m2 61 ltac:(lia) ltac:(lia)) as Hd2.
  assert (He2' : e2 <= 971).
  { destruct He2 as [->| ->]; [lia|]. unfold fexp, emin, prec, emax. lia. }
  destruct (shr_m mrs2); [done| |done].
  destruct (Z.leb_spec e2 (emax - prec)) as [|Hgt]; [done|].
  unfold emax, prec in Hgt. lia.
Qed.

(** The quotient mantissa of a division by 100. *)
Lemma SFdiv_core_by_100 (n : positive) :
  Z.pos n < 2 ^ 60 ->
  let '(q, e, _) := SFdiv_core_binary prec emax (Z.pos n) 0 100 0 in
  0 <= q < 2 ^ 60 /\ e <= 0.
Proof.
  intros Hn. unfold SFdiv_core_binary.
  pose proof (Zdigits2_le (Z.pos n) 60 ltac:(lia) ltac:(lia)) as Hd.
  pose proof (pos_lt_pow_digits n) as Hlt.
  change (Zdigits2 100) with 7. cbn [Zdigits2] in *.
  set (d := Z.pos (digits2_pos n)) in *.
  assert (Hd0 : 0 < d) by (unfold d; lia).
  replace (Z.min (fexp prec emax (d + 0 - (7 + 0))) (0 - 0)) with (d - 60)
    by (unfold fexp, emin, prec, emax; lia).
  replace (0 - 0 - (d - 60)) with (60 - d) by lia.
  set (m' := match 60 - d with
             | 0 => Z.pos n
             | Z.pos _ => Z.shiftl (Z.pos n) (60 - d)
             | Z.neg _ => 0
             end).
  assert (Hm' : 0 <= m' < 2 ^ 60).
  { unfold m'. destruct (60 - d) as [|k|k] eqn:Hk; [lia| |lia].
    rewrite Z.shiftl_mul_pow2 by lia.
    assert (Z.pos n * 2 ^ Z.pos k < 2 ^ d * 2 ^ Z.pos k)
      by (apply Z.mul_lt_mono_pos_r; lia).
    rewrite <- Z.pow_add_r in H by lia.
    replace (d + Z.pos k) with 60 in H by lia. lia. }
  pose proof (Z.div_eucl_eq m' 100 ltac:(lia)) as Heq.
  pose proof (Z.mod_pos_bound m' 100 ltac:(lia)) as Hmod.
  unfold Z.modulo in Hmod.
  destruct (Z.div_eucl m' 100) as [q r]. lia.
Qed.

Lemma SFdiv_by_100_finite (s : bool) (n : positive) :
  Z.pos n < 2 ^ 60 ->
  forall s',
    SFdiv prec emax (S754_finite s n 0) (S754_finite false 100 0)
    <> S754_infinity s'.
Proof.
  intros Hn s'. unfold SFdiv.
  pose proof (SFdiv_core_by_100 n Hn) as H.
  destruct (SFdiv_core_binary prec emax (Z.pos n) 0 100 0) as [[q e] l].
  apply binary_round_aux_finite; tauto.
Qed.

Lemma round_half_even_bound (m e : Z) :
  0 <= m -> e < 0 -> round_half_even m e <= m / 2 + 1.
Proof.
  intros Hm He. unfold round_half_even.
  destruct (Z.leb_spec 0 e) as [?|_]; [lia|].
  assert (Hd : 2 <= 2 ^ (- e)).
  { change 2 with (2 ^ 1) at 1. apply Z.pow_le_mono_r; lia. }
  pose proof (Z.div_le_compat_l m 2 (2 ^ (- e)) Hm ltac:(lia)) as Hq.
  cbv zeta. destruct (2 * _ ?= _); [destruct (Z.even _)| |]; lia.
Qed.

Lemma valid_mantissa_bound (s : bool) (m : positive) (e : Z) :
  valid_binary (S754_finite s m e) = true -> Z.pos m < 2 ^ 53.
Proof.
  intros Hv. cbn [valid_binary] in Hv. unfold bounded, canonical_mantissa in Hv.
  apply andb_prop in Hv as [Hc _]. apply Z.eqb_eq in Hc. pose proof (pos_lt_pow_digits m) as Hlt.
  assert (Hd : Z.pos (digits2_pos m) <= 53)
    by (revert Hc; unfold fexp, emin, prec, emax; lia).
  eapply Z.lt_le_trans; [exact Hlt|]. apply Z.pow_le_mono_r; lia.
Qed.

(** [round(x, 2)] never raises: a finite [x] below [2^53] in magnitude
    has a two-digit decimal below [2^60 / 100], and larger ones are
    integers. *)
Lemma py_round2_total (x : float) : exists y, py_round2 x = Ok y.
Proof.
  unfold py_round2. pose proof (Prim2SF_valid x) as Hv.
  destruct (Prim2SF x) as [| | |s m e]; eauto.
  destruct (Z.leb_spec 0 e) as [|He]; eauto.
  pose proof (valid_mantissa_bound s m e Hv) as Hm.
  pose proof (round_half_even_bound (Z.pos m * 100) e ltac:(lia) He) as Hn.
  destruct (round_half_even (Z.pos m * 100) e) as [|n|n]; eauto.
  assert (Hn' : Z.pos n < 2 ^ 60).
  { pose proof (Z.mul_div_le (Z.pos m * 100) 2 ltac:(lia)) as Hhalf.
    change (2 ^ 53) with 9007199254740992 in Hm.
    change (2 ^ 60) with 1152921504606846976. lia. }
  pose proof (SFdiv_by_100_finite s n Hn') as Hfin.
  destruct (SFdiv prec emax (S754_finite s n 0) (S754_finite false 100 0))
    eqn:Hdiv; eauto.
  now destruct (Hfin s0).
Qed.

End Float64.

(** ** One call of [add_transaction] *)

Section OneCall.

Variables (type : string) (amount : float) (description category : string).
Variable self : PersonalFinanceLedger.

Lemma add_transaction_rejects :
  (amount <=? 0)%float = true ->
  add_transaction type amount description category self =
    (Raise (ValueError "Amount must be a positive number."), self).
Proof. intros H. unfold add_transaction. now rewrite H. Qed.

Lemma add_transaction_accepts :
  (amount <=? 0)%float = false ->
  add_transaction type amount description category self =
    (Ok (transaction_record (transaction_id_counter self)
           type amount description category),
     mkLedger
       (transactions self ++
        [transaction_record (transaction_id_counter self)
           type amount description category])
       (transaction_id_counter self + 1)).
Proof. intros H. unfold add_transaction. now rewrite H. Qed.

End OneCall.

Section Fields.

Variables (id : Z) (type : string) (amount : float) (description category : string).

Lemma tx_id_record :
  tx_id (transaction_record id type amount description category) = Some id.
Proof. reflexivity. Qed.

Lemma tx_kind_record :
  tx_kind (transaction_record id type amount description category) = Some type.
Proof. reflexivity. Qed.

Lemma tx_amount_record :
  tx_amount (transaction_record id type amount description category) = Some amount.
Proof. reflexivity. Qed.

Lemma description_record :
  transaction_record id type amount description category !! "description"
  = Some (VStr description).
Proof. reflexivity. Qed.

Lemma category_record :
  transaction_record id type amount description category !! "category"
  = Some (VStr category).
Proof. reflexivity. Qed.

Lemma dom_record :
  dom (transaction_record id type amount description category)
  = ({[ "id"; "type"; "amount"; "description"; "category" ]} : gset string).
Proof. unfold transaction_record. rewrite !dom_insert_L, dom_singleton_L. set_solver. Qed.

End Fields.

(** ** A sequence of calls *)

Lemma run_adds_ledger (calls : list add_args) (self : PersonalFinanceLedger) :
  (run_adds calls self).2 =
    mkLedger
      (transactions self ++ records_from (transaction_id_counter self) calls)
      (transaction_id_counter self
       + Z.of_nat (length (records_from (transaction_id_counter self) calls))).
Proof.
  revert self. induction calls as [|a calls IH]; intros [txs n]; cbn.
  - now rewrite app_nil_r, Z.add_0_r.
  - unfold call_add, accepted.
    destruct (arg_amount a <=? 0)%float eqn:Hle; cbn.
    + rewrite add_transaction_rejects by done.
      specialize (IH (mkLedger txs n)).
      destruct (run_adds calls (mkLedger txs n)) as [rs self'']. exact IH.
    + rewrite add_transaction_accepts by done. cbn.
      match goal with |- context [run_adds calls ?s] => specialize (IH s) end.
      destruct (run_adds calls _) as [rs self'']. cbn in *. rewrite IH.
      rewrite <- app_assoc. cbn. f_equal. lia.
Qed.

Lemma run_adds_successes (calls : list add_args) (self : PersonalFinanceLedger) :
  successes (run_adds calls self).1
  = records_from (transaction_id_counter self) calls.
Proof.
  revert self. induction calls as [|a calls IH]; intros [txs n]; cbn; [done|].
  unfold call_add, accepted.
  destruct (arg_amount a <=? 0)%float eqn:Hle; cbn.
  - rewrite add_transaction_rejects by done.
    specialize (IH (mkLedger txs n)).
    destruct (run_adds calls (mkLedger txs n)) as [rs self'']. exact IH.
  - rewrite add_transaction_accepts by done. cbn.
    match goal with |- context [run_adds calls ?s] => specialize (IH s) end.
    destruct (run_adds calls _) as [rs self'']. cbn in *. now rewrite IH.
Qed.

(** The ids of the records are consecutive. *)
Lemma records_from_ids (n : Z) (calls : list add_args) :
  tx_id <$> records_from n calls
  = Some <$> seqZ n (Z.of_nat (length (records_from n calls))).
Proof.
  revert n. induction calls as [|a calls IH]; intros n; cbn; [done|].
  destruct (accepted a); [|apply IH].
  cbn [length]. rewrite seqZ_cons by lia. cbn [fmap list_fmap].
  rewrite tx_id_record. f_equal.
  change (tx_id <$> records_from (n + 1) calls
          = Some <$> seqZ (Z.succ n)
              (Z.pred (Z.of_nat (S (length (records_from (n + 1) calls)))))).
  rewrite Nat2Z.inj_succ, Z.pred_succ. apply IH.
Qed.

Lemma records_from_lookup_id (n : Z) (calls : list add_args) (i : nat)
    (tx : Transaction) :
  records_from n calls !! i = Some tx -> tx_id tx = Some (n + Z.of_nat i).
Proof.
  intros Hi.
  assert (H : (tx_id <$> records_from n calls) !! i = Some (tx_id tx))
    by now rewrite list_lookup_fmap, Hi.
  rewrite records_from_ids, list_lookup_fmap in H.
  destruct (seqZ _ _ !! i) as [k|] eqn:Hk; [|done].
  apply lookup_seqZ in Hk as [-> _]. now inversion H.
Qed.

(** Every record comes from an accepted call and carries its fields. *)
Lemma records_from_origin (n : Z) (calls : list add_args) (tx : Transaction) :
  tx ∈ records_from n calls ->
  exists a k, a ∈ calls /\ (arg_amount a <=? 0)%float = false /\
    tx = transaction_record k (arg_type a) (arg_amount a)
           (arg_description a) (arg_category a).
Proof.
  revert n. induction calls as [|a calls IH]; intros n; cbn.
  - intros H. inversion H.
  - unfold accepted. destruct (arg_amount a <=? 0)%float eqn:Hle; cbn.
    + intros H. destruct (IH _ H) as (b & k & ? & ? & ?).
      exists b, k. split; [by right | done].
    + intros [->|H]%elem_of_cons.
      * exists a, n. split; [by left | done].
      * destruct (IH _ H) as (b & k & ? & ? & ?).
        exists b, k. split; [by right | done].
Qed.

(** Ledgers grown from the empty one: every stored id is below the
    counter. *)
Lemma grown_ids_below_counter (self : PersonalFinanceLedger) :
  grown_from_empty self ->
  forall tx, tx ∈ transactions self ->
    exists k, tx_id tx = Some k /\ 1 <= k < transaction_id_counter self.
Proof.
  intros [calls ->] tx. rewrite run_adds_ledger. cbn.
  intros [i Hi]%list_elem_of_lookup_1.
  pose proof (lookup_lt_Some _ _ _ Hi) as Hlt.
  apply records_from_lookup_id in Hi.
  exists (1 + Z.of_nat i). split; [done | lia].
Qed.

(** ** The summary *)

Lemma amounts_of_cons (kind : string) (tx : Transaction) (txs : Ledger)
    (k : string) (a : float) :
  tx_kind tx = Some k -> tx_amount tx = Some a ->
  amounts_of kind (tx :: txs)
  = if bool_decide (k = kind) then a :: amounts_of kind txs
    else amounts_of kind txs.
Proof.
  intros Hk Ha. unfold amounts_of. cbn [omap list_omap]. unfold counted at 1.
  rewrite Hk, Ha. repeat case_bool_decide; simplify_eq; reflexivity.
Qed.

Lemma grown_records (self : PersonalFinanceLedger) :
  grown_from_empty self -> Forall is_record (transactions self).
Proof.
  intros [calls ->]. rewrite run_adds_ledger. cbn.
  apply Forall_forall. intros tx (a & k & _ & _ & ->)%records_from_origin.
  split; eexists; reflexivity.
Qed.

Section Summary.

Variable float_of_str : string -> result float.

Lemma summary_step_record (ti te : float) (tx : Transaction) (k : string)
    (a : float) :
  tx_kind tx = Some k -> tx_amount tx = Some a ->
  summary_step float_of_str (ti, te) tx
  = Ok (if bool_decide (k = "Income") then ((ti + a)%float, te)
        else if bool_decide (k = "Expense") then (ti, (te + a)%float)
        else (ti, te)).
Proof.
  unfold tx_kind, tx_amount, summary_step. intros Hk Ha.
  destruct (tx !! "type") as [[]|]; try done.
  destruct (tx !! "amount") as [[]|]; try done.
  inversion Hk; inversion Ha; subst. cbn.
  repeat case_bool_decide; reflexivity.
Qed.

Lemma summary_loop_records (txs : Ledger) (ti te : float) :
  Forall is_record txs ->
  summary_loop float_of_str txs (ti, te)
  = Ok (foldl PrimFloat.add ti (amounts_of "Income" txs),
        foldl PrimFloat.add te (amounts_of "Expense" txs)).
Proof.
  intros Hrec. revert ti te.
  induction Hrec as [|tx txs [[k Hk] [a Ha]] _ IH]; intros ti te; [done|].
  cbn [summary_loop]. rewrite (summary_step_record _ _ _ k a) by done.
  rewrite !(amounts_of_cons _ tx txs k a) by done.
  repeat case_bool_decide; simplify_eq; cbn; apply IH.
Qed.

Lemma get_summary_unfold (self : PersonalFinanceLedger) (ti te : float)
    (r_income r_expense r_net : float) :
  summary_loop float_of_str (transactions self) (0%float, 0%float) = Ok (ti, te) ->
  py_round2 ti = Ok r_income ->
  py_round2 te = Ok r_expense ->
  py_round2 (ti - te) = Ok r_net ->
  get_summary float_of_str self
  = (Ok {[ "total_income" := r_income;
           "total_expense" := r_expense;
           "net_balance" := r_net ]}, self).
Proof.
  intros Hloop Hi He Hn. unfold get_summary.
  unfold mbind, M_bind, bind, lift, get_self. cbn.
  rewrite Hloop. cbn. rewrite Hi, He, Hn. reflexivity.
Qed.

(** Reading the state does not change it, whatever the loop and the
    roundings return. *)
Lemma get_summary_state (self : PersonalFinanceLedger) :
  (get_summary float_of_str self).2 = self.
Proof.
  unfold get_summary, mbind, M_bind, bind, lift, get_self, mret, M_ret, ret.
  destruct (summary_loop _ _ _) as [[ti te]|]; cbn; [|done].
  destruct (py_round2 ti); cbn; [|done].
  destruct (py_round2 te); cbn; [|done].
  now destruct (py_round2 (ti - te)).
Qed.

Lemma py_eq_str_false (v : value) (s : string) :
  v <> VStr s -> py_eq_str v s = false.
Proof.
  destruct v as [s'| |]; cbn; try done.
  intros Hne. apply bool_decide_eq_false. congruence.
Qed.

(** A transaction of another kind leaves the totals as they are. *)
Lemma summary_step_other_kind (totals : float * float) (tx : Transaction)
    (v : value) :
  tx !! "type" = Some v -> v <> VStr "Income" -> v <> VStr "Expense" ->
  summary_step float_of_str totals tx = Ok totals.
Proof.
  intros Hv Hi He. destruct totals as [ti te]. unfold summary_step.
  rewrite Hv. cbn. now rewrite !py_eq_str_false.
Qed.

Lemma summary_loop_app (l1 l2 : Ledger) (totals : float * float) :
  summary_loop float_of_str (l1 ++ l2) totals
  = (totals' ← summary_loop float_of_str l1 totals;
     summary_loop float_of_str l2 totals').
Proof.
  revert totals. induction l1 as [|tx l1 IH]; intros totals; cbn; [done|].
  destruct (summary_step float_of_str totals tx); cbn; [apply IH | done].
Qed.

End Summary.

(** ** What a sequence of calls does to any ledger *)

Lemma records_from_length (n : Z) (calls : list add_args) :
  length (records_from n calls) = length (filter (fun a => accepted a = true) calls).
Proof.
  revert n. induction calls as [|a calls IH]; intros n; [done|].
  cbn [records_from]. rewrite filter_cons. destruct (accepted a) eqn:Ha.
  - rewrite decide_True by done. cbn [length]. now rewrite IH.
  - rewrite decide_False by congruence. apply IH.
Qed.

Lemma records_from_filter (n : Z) (calls : list add_args) :
  records_from n (filter (fun a => accepted a = true) calls) = records_from n calls.
Proof.
  revert n. induction calls as [|a calls IH]; intros n; [done|].
  cbn [records_from]. rewrite filter_cons. destruct (accepted a) eqn:Ha.
  - rewrite decide_True by done. cbn [records_from]. now rewrite Ha, IH.
  - rewrite decide_False by congruence. apply IH.
Qed.

Lemma run_adds_length (calls : list add_args) (self : PersonalFinanceLedger) :
  length (run_adds calls self).1 = length calls.
Proof.
  revert self. induction calls as [|a calls IH]; intros self; cbn; [done|].
  destruct (call_add a self) as [r self']. specialize (IH self').
  destruct (run_adds calls self') as [rs self'']. cbn in *. now rewrite IH.
Qed.

(** The outcome of the call at position [j]: a refusal, or the record
    whose id is the counter moved by the calls accepted before it. *)
Lemma run_adds_lookup (calls : list add_args) (self : PersonalFinanceLedger)
    (j : nat) (a : add_args) :
  calls !! j = Some a ->
  (run_adds calls self).1 !! j
  = Some (if (arg_amount a <=? 0)%float
          then Raise (ValueError "Amount must be a positive number.")
          else Ok (transaction_record
                     (transaction_id_counter self
                      + Z.of_nat (length (filter (fun b => accepted b = true)
                                            (take j calls))))
                     (arg_type a) (arg_amount a)
                     (arg_description a) (arg_category a))).
Proof.
  revert self j. induction calls as [|a0 calls IH]; intros self j Hj; [done|].
  destruct j as [|j].
  - injection Hj as ->. cbn [run_adds take]. unfold call_add.
    rewrite filter_nil. cbn [length]. rewrite Z.add_0_r.
    destruct (arg_amount a <=? 0)%float eqn:Hle.
    + rewrite add_transaction_rejects by done.
      now destruct (run_adds calls self).
    + rewrite add_transaction_accepts by done.
      now destruct (run_adds calls _).
  - cbn in Hj. cbn [run_adds take]. rewrite filter_cons. unfold call_add.
    assert (Hacc : accepted a0 = negb (arg_amount a0 <=? 0)%float)
      by reflexivity.
    destruct (arg_amount a0 <=? 0)%float eqn:Hle0; cbn [negb] in Hacc.
    + rewrite add_transaction_rejects by done.
      rewrite decide_False by (rewrite Hacc; done).
      specialize (IH self j Hj).
      destruct (run_adds calls self) as [rs self'']. exact IH.
    + rewrite add_transaction_accepts by done.
      rewrite decide_True by (rewrite Hacc; done).
      match goal with |- context [run_adds calls ?s] =>
        specialize (IH s j Hj) end.
      destruct (run_adds calls _) as [rs self'']. cbn in IH |- *.
      etrans; [exact IH|]. rewrite Nat2Z.inj_succ.
      replace (transaction_id_counter self + 1
               + Z.of_nat (length (filter (fun b => accepted b = true)
                                     (take j calls))))
        with (transaction_id_counter self
              + Z.succ (Z.of_nat (length (filter (fun b => accepted b = true)
                                            (take j calls))))) by lia.
      reflexivity.
Qed.

(** ** The summary of any ledger *)

Section AnyLedger.

Variable float_of_str : string -> result float.

(** [get_summary] is the loop followed by the three roundings, and hands
    the ledger back. *)
Lemma get_summary_alt (self : PersonalFinanceLedger) :
  get_summary float_of_str self
  = (match summary_loop float_of_str (transactions self) (0%float, 0%float) with
     | Ok totals => summary_of_totals totals.1 totals.2
     | Raise e => Raise e
     end, self).
Proof.
  unfold get_summary, summary_of_totals, mbind, M_bind, bind, lift, get_self,
    mret, M_ret, ret.
  destruct (summary_loop _ _ _) as [[ti te]|]; cbn; [|done].
  destruct (py_round2 ti); cbn; [|done].
  destruct (py_round2 te); cbn; [|done].
  now destruct (py_round2 (ti - te)).
Qed.

(** One turn of the loop on a dictionary it gets past. *)
Lemma summary_step_convertible (ti te : float) (tx : Transaction) :
  convertible float_of_str tx ->
  summary_step float_of_str (ti, te) tx
  = Ok (foldl PrimFloat.add ti
          (option_list (counted_amount float_of_str "Income" tx)),
        foldl PrimFloat.add te
          (option_list (counted_amount float_of_str "Expense" tx))).
Proof.
  unfold convertible, is_counted, counted_amount, summary_step.
  fold (kind_or_default tx). fold (amount_or_default tx).
  intros Hconv.
  destruct (kind_or_default tx) as [k| |]; cbn in *; try done.
  repeat case_bool_decide; simplify_eq; cbn in *; try done;
    destruct Hconv as [x ->]; done.
Qed.

Lemma summary_loop_convertible (txs : Ledger) (ti te : float) :
  Forall (convertible float_of_str) txs ->
  summary_loop float_of_str txs (ti, te)
  = Ok (foldl PrimFloat.add ti (omap (counted_amount float_of_str "Income") txs),
        foldl PrimFloat.add te (omap (counted_amount float_of_str "Expense") txs)).
Proof.
  intros Hconv. revert ti te.
  induction Hconv as [|tx txs Htx _ IH]; intros ti te; [done|].
  cbn [summary_loop]. rewrite summary_step_convertible by done.
  cbn [mbind result_bind]. rewrite IH. cbn [omap list_omap].
  destruct (counted_amount float_of_str "Income" tx),
    (counted_amount float_of_str "Expense" tx); reflexivity.
Qed.

(** The first amount that [float] refuses ends the loop. *)
Lemma summary_loop_refused (before after : Ledger) (tx : Transaction)
    (e : exn) (totals : float * float) :
  Forall (convertible float_of_str) before ->
  is_counted tx = true ->
  py_float float_of_str (amount_or_default tx) = Raise e ->
  summary_loop float_of_str (before ++ tx :: after) totals = Raise e.
Proof.
  intros Hbefore Hcounted Hraise. destruct totals as [ti te].
  rewrite summary_loop_app, summary_loop_convertible by done.
  cbn [mbind result_bind summary_loop]. unfold summary_step.
  fold (kind_or_default tx). fold (amount_or_default tx).
  unfold is_counted in Hcounted. rewrite Hraise.
  destruct (py_eq_str (kind_or_default tx) "Income"); [done|].
  destruct (py_eq_str (kind_or_default tx) "Expense"); done.
Qed.

(** The loop reads nothing but the two keys. *)
Lemma summary_loop_reads_two_keys (txs1 txs2 : Ledger) (totals : float * float) :
  (fun tx : Transaction => (tx !! "type", tx !! "amount")) <$> txs1
  = (fun tx : Transaction => (tx !! "type", tx !! "amount")) <$> txs2 ->
  summary_loop float_of_str txs1 totals = summary_loop float_of_str txs2 totals.
Proof.
  revert txs2 totals.
  induction txs1 as [|tx1 txs1 IH]; intros [|tx2 txs2] totals Heq;
    try done.
  cbn in Heq. injection Heq as Hty Ham Hrest. cbn [summary_loop].
  assert (Hstep : summary_step float_of_str totals tx1
                  = summary_step float_of_str totals tx2).
  { unfold summary_step. now rewrite Hty, Ham. }
  rewrite Hstep. destruct (summary_step float_of_str totals tx2); cbn; [|done].
  now apply IH.
Qed.

End AnyLedger.

Lemma summary_of_totals_returns (total_income total_expense : float) :
  exists s, summary_of_totals total_income total_expense = Ok s.
Proof.
  unfold summary_of_totals.
  destruct (Float64.py_round2_total total_income) as [r_income ->].
  destruct (Float64.py_round2_total total_expense) as [r_expense ->].
  destruct (Float64.py_round2_total (total_income - total_expense))
    as [r_net ->].
  cbn. eauto.
Qed.

(** ** One dictionary among others *)

Section OneAmongOthers.

Variable float_of_str : string -> result float.

(** The summary of a ledger, one of whose dictionaries is singled out. *)
Lemma get_summary_around (before after : Ledger) (tx : Transaction) (n : Z) :
  Forall (convertible float_of_str) before ->
  Forall (convertible float_of_str) after ->
  convertible float_of_str tx ->
  get_summary float_of_str (mkLedger (before ++ tx :: after) n)
  = (summary_of_totals
       (float_sum (omap (counted_amount float_of_str "Income") before
                   ++ option_list (counted_amount float_of_str "Income" tx)
                   ++ omap (counted_amount float_of_str "Income") after))
       (float_sum (omap (counted_amount float_of_str "Expense") before
                   ++ option_list (counted_amount float_of_str "Expense" tx)
                   ++ omap (counted_amount float_of_str "Expense") after)),
     mkLedger (before ++ tx :: after) n).
Proof.
  intros Hbefore Hafter Htx.
  rewrite get_summary_alt. cbn [transactions].
  rewrite summary_loop_convertible
    by (apply Forall_app; split; [done|]; by constructor).
  cbn [fst snd]. unfold float_sum. rewrite !omap_app. cbn [omap list_omap].
  destruct (counted_amount float_of_str "Income" tx),
    (counted_amount float_of_str "Expense" tx); reflexivity.
Qed.

(** A dictionary of another kind is not counted. *)
Lemma other_kind_not_counted (tx : Transaction) (v : value) :
  tx !! "type" = Some v -> v <> VStr "Income" -> v <> VStr "Expense" ->
  convertible float_of_str tx
  /\ counted_amount float_of_str "Income" tx = None
  /\ counted_amount float_of_str "Expense" tx = None.
Proof.
  intros Hv Hi He.
  unfold convertible, is_counted, counted_amount, kind_or_default.
  rewrite Hv. cbn. rewrite !py_eq_str_false by done. by repeat split.
Qed.

(** A dictionary without a "type" is counted as an expense. *)
Lemma untyped_counted_as_expense (tx : Transaction) (a : float) :
  tx !! "type" = None ->
  py_float float_of_str (amount_or_default tx) = Ok a ->
  convertible float_of_str tx
  /\ counted_amount float_of_str "Income" tx = None
  /\ counted_amount float_of_str "Expense" tx = Some a.
Proof.
  intros Hnone Ha.
  unfold convertible, counted_amount, kind_or_default.
  rewrite Hnone, Ha. cbn. split; [eauto | by split].
Qed.

(** A dictionary without an "amount" is counted for 0.0. *)
Lemma unpriced_counted_for_zero (tx : Transaction) (k : string) :
  tx !! "amount" = None ->
  kind_or_default tx = VStr k ->
  convertible float_of_str tx
  /\ counted_amount float_of_str "Income" tx
     = (if bool_decide (k = "Income") then Some 0%float else None)
  /\ counted_amount float_of_str "Expense" tx
     = (if bool_decide (k = "Expense") then Some 0%float else None).
Proof.
  intros Hnone Hk.
  unfold convertible, counted_amount, amount_or_default.
  rewrite Hnone, Hk. cbn. split; [eauto|].
  split; case_bool_decide; reflexivity.
Qed.

End OneAmongOthers.

(** ** Sample runs *)

(** [round(0.125, 2)] is 0.12 and [round(0.375, 2)] is 0.38: a tie goes
    to the even digit.  [round(-0.001, 2)] is -0.0. *)
Example py_round2_ties :
  py_round2 0.125 = Ok 0x1.eb851eb851eb8p-4%float
  /\ py_round2 0.375 = Ok 0x1.851eb851eb852p-2%float
  /\ py_round2 (-0x1p-10) = Ok (-0)%float
  /\ py_round2 0x1p+60 = Ok 0x1p+60%float
  /\ py_round2 infinity = Ok infinity
  /\ py_round2 nan = Ok nan.
Proof. repeat split; reflexivity. Qed.

(** The first call on a new ledger gets id 1. *)
Example first_transaction :
  add_transaction "Income" 100.5 "Freelance payment" "Salary" (__init__ None)
  = (Ok (transaction_record 1 "Income" 100.5 "Freelance payment" "Salary"),
     mkLedger [transaction_record 1 "Income" 100.5 "Freelance payment" "Salary"] 2).
Proof. reflexivity. Qed.

(** A refused call between two accepted ones uses no id. *)
Example refused_call_uses_no_id :
  run_adds
    [ AddArgs "Expense" 25 "Groceries" "Food";
      AddArgs "Expense" (-5) "Bad" "Test";
      AddArgs "Income" 100 "Bonus" "Salary" ]
    (__init__ None)
  = ([ Ok (transaction_record 1 "Expense" 25 "Groceries" "Food");
       Raise (ValueError "Amount must be a positive number.");
       Ok (transaction_record 2 "Income" 100 "Bonus" "Salary") ],
     mkLedger
       [ transaction_record 1 "Expense" 25 "Groceries" "Food";
         transaction_record 2 "Income" 100 "Bonus" "Salary" ]
       3).
Proof. reflexivity. Qed.

(** An integer amount in the initial data is converted by [float]. *)
Example summary_of_integer_amounts :
  (get_summary refuse_text
     (__init__ (Some [ {[ "type" := VStr "Income"; "amount" := VInt 3 ]} ]))).1
  = Ok {[ "total_income" := 3%float;
          "total_expense" := 0%float;
          "net_balance" := 3%float ]}.
Proof. vm_compute; reflexivity. Qed.

(** * The claims *)

(** C1: [add_transaction] called with an amount [<= 0] raises the
    [ValueError] "Amount must be a positive number." and hands the ledger
    back as it was, sequence and counter alike; called with an amount
    [> 0] it returns a transaction; and whether it raises depends on the
    amount alone, whatever the type, description, category and ledger. *)
Theorem add_transaction_validates_amount
    (self : PersonalFinanceLedger) (type : string) (amount : float)
    (description category : string) :
  ((amount <=? 0)%float = true ->
   add_transaction type amount description category self
   = (Raise (ValueError "Amount must be a positive number."), self))
  /\ ((0 <? amount)%float = true ->
      exists tx self',
        add_transaction type amount description category self = (Ok tx, self'))
  /\ (forall self' type' description' category',
        raised (add_transaction type' amount description' category' self').1
        = raised (add_transaction type amount description category self).1).
Proof.
  split; [apply add_transaction_rejects|]. split.
  - intros Hpos%Float64.positive_passes.
    rewrite add_transaction_accepts by done. eauto.
  - intros self' type' description' category'. unfold add_transaction.
    now destruct (amount <=? 0)%float.
Qed.

Lemma add_transaction_validates_amount_witness :
  add_transaction "Expense" (-5) "Bad" "Test" (__init__ None)
  = (Raise (ValueError "Amount must be a positive number."), __init__ None)
  /\ exists tx self',
       add_transaction "Income" 100.5 "Freelance payment" "Salary" (__init__ None)
       = (Ok tx, self').
Proof.
  split.
  - apply (add_transaction_validates_amount
             (__init__ None) "Expense" (-5) "Bad" "Test"). reflexivity.
  - apply (add_transaction_validates_amount
             (__init__ None) "Income" 100.5 "Freelance payment" "Salary").
    reflexivity.
Defined.

(** C2: on a ledger created empty, whatever calls of [add_transaction]
    follow, a call whose amount passes the guard returns the record of
    its arguments with id 1 plus the number of calls accepted before it,
    so the i-th successful call assigns id i, and any other call raises;
    the stored transactions are exactly those the successful calls
    returned, in order, one per accepted call; their ids are 1, 2, ...
    up to their number, and the counter is one above it; hence ids grow
    strictly along the sequence and no two stored transactions share
    one. *)
Theorem ids_are_sequential (calls : list add_args) :
  let outcome := run_adds calls (__init__ None) in
  let accepted_in (l : list add_args) :=
    Z.of_nat (length (filter (fun a => accepted a = true) l)) in
  (forall (j : nat) (a : add_args),
     calls !! j = Some a ->
     outcome.1 !! j
     = Some (if (arg_amount a <=? 0)%float
             then Raise (ValueError "Amount must be a positive number.")
             else Ok (transaction_record (1 + accepted_in (take j calls))
                        (arg_type a) (arg_amount a)
                        (arg_description a) (arg_category a))))
  /\ transactions outcome.2 = successes outcome.1
  /\ Z.of_nat (length (transactions outcome.2)) = accepted_in calls
  /\ tx_id <$> transactions outcome.2 = Some <$> seqZ 1 (accepted_in calls)
  /\ transaction_id_counter outcome.2 = 1 + accepted_in calls
  /\ (forall (i : nat) (tx : Transaction),
        successes outcome.1 !! i = Some tx -> tx_id tx = Some (Z.of_nat i + 1))
  /\ (forall (i j : nat) (txi txj : Transaction),
        transactions outcome.2 !! i = Some txi ->
        transactions outcome.2 !! j = Some txj ->
        (i < j)%nat ->
        exists a b, tx_id txi = Some a /\ tx_id txj = Some b /\ a < b)
  /\ (forall (i j : nat) (txi txj : Transaction),
        transactions outcome.2 !! i = Some txi ->
        transactions outcome.2 !! j = Some txj ->
        tx_id txi = tx_id txj -> i = j).
Proof.
  cbv zeta. split; [intros j a Hj; now apply run_adds_lookup|].
  rewrite run_adds_ledger, run_adds_successes. cbn.
  rewrite <- (records_from_length 1 calls).
  split; [done|]. split; [done|]. split; [apply records_from_ids|].
  split; [done|]. split; [|split].
  - intros i tx Hi. apply records_from_lookup_id in Hi. rewrite Hi. f_equal. lia.
  - intros i j txi txj Hi%records_from_lookup_id Hj%records_from_lookup_id Hij.
    eexists _, _. split; [done|]. split; [done|]. lia.
  - intros i j txi txj Hi%records_from_lookup_id Hj%records_from_lookup_id Heq.
    rewrite Hi, Hj in Heq. inversion Heq. lia.
Qed.

Lemma ids_are_sequential_witness :
  (run_adds three_calls (__init__ None)).1 !! 2%nat
  = Some (Ok (transaction_record 2 "Income" 100 "Bonus" "Salary"))
  /\ (run_adds three_calls (__init__ None)).1 !! 1%nat
     = Some (Raise (ValueError "Amount must be a positive number."))
  /\ tx_id <$> transactions (run_adds three_calls (__init__ None)).2
     = [Some 1; Some 2]
  /\ transaction_id_counter (run_adds three_calls (__init__ None)).2 = 3.
Proof.
  destruct (ids_are_sequential three_calls)
    as (Hcall & _ & _ & Hids & Hcounter & _).
  split; [exact (Hcall 2%nat (AddArgs "Income" 100 "Bonus" "Salary") eq_refl)|].
  split; [exact (Hcall 1%nat (AddArgs "Expense" (-5) "Bad" "Test") eq_refl)|].
  split; [exact Hids | exact Hcounter].
Defined.

(** C3, as stated, fails on ledgers that were given initial
    transactions: a dictionary without a "type" is added to the expenses
    although no stored transaction has kind "Expense", and an amount that
    [float] refuses makes [get_summary] raise instead of returning. *)
Lemma get_summary_on_other_dictionaries :
  amounts_of "Expense" (transactions (__init__ (Some [untyped]))) = []
  /\ (exists s : gmap string float,
        get_summary refuse_text (__init__ (Some [untyped]))
        = (Ok s, __init__ (Some [untyped]))
        /\ s !! "total_expense" = Some 12.5%float)
  /\ get_summary refuse_text (__init__ (Some [oversized]))
     = (Raise (OverflowError "int too large to convert to float"),
        __init__ (Some [oversized])).
Proof.
  split; [reflexivity|]. split; [|vm_compute; reflexivity].
  eexists. split; vm_compute; reflexivity.
Qed.

(** C3, amended: on a ledger whose stored transactions are records, with
    a text under "type" and a float under "amount", as in every ledger
    grown through [add_transaction], [get_summary] returns, and leaves
    the ledger as it is; "total_income" is the sum of the amounts of the
    transactions of kind "Income", "total_expense" the sum of those of
    kind "Expense", both accumulated from 0.0 in insertion order, and
    "net_balance" their difference, each put through [round(., 2)]. *)
Theorem get_summary_totals
    (float_of_str : string -> result float) (self : PersonalFinanceLedger) :
  Forall is_record (transactions self) ->
  let total_income := float_sum (amounts_of "Income" (transactions self)) in
  let total_expense := float_sum (amounts_of "Expense" (transactions self)) in
  exists r_income r_expense r_net,
    py_round2 total_income = Ok r_income
    /\ py_round2 total_expense = Ok r_expense
    /\ py_round2 (total_income - total_expense) = Ok r_net
    /\ get_summary float_of_str self
       = (Ok {[ "total_income" := r_income;
                "total_expense" := r_expense;
                "net_balance" := r_net ]}, self).
Proof.
  intros Hrec total_income total_expense.
  destruct (Float64.py_round2_total total_income) as [r_income Hi].
  destruct (Float64.py_round2_total total_expense) as [r_expense He].
  destruct (Float64.py_round2_total (total_income - total_expense))
    as [r_net Hn].
  exists r_income, r_expense, r_net. repeat (split; [assumption|]).
  apply (get_summary_unfold _ _ total_income total_expense); try assumption.
  now apply summary_loop_records.
Qed.

Lemma get_summary_totals_witness :
  Forall is_record (transactions (run_adds two_calls (__init__ None)).2)
  /\ get_summary refuse_text (run_adds two_calls (__init__ None)).2
     = (Ok {[ "total_income" := 100%float;
              "total_expense" := 25%float;
              "net_balance" := 75%float ]},
        (run_adds two_calls (__init__ None)).2).
Proof.
  assert (Hrec : Forall is_record (transactions (run_adds two_calls (__init__ None)).2)).
  { repeat constructor; eexists; reflexivity. }
  split; [exact Hrec|].
  destruct (get_summary_totals refuse_text _ Hrec)
    as (r_income & r_expense & r_net & Hi & He & Hn & Hrun).
  rewrite Hrun.
  vm_compute in Hi, He, Hn. inversion Hi; inversion He; inversion Hn.
  reflexivity.
Defined.

(** C4, as stated, fails: the constructor stores the list it is given
    without looking at the amounts, so a ledger can hold a record whose
    amount is not above zero without [add_transaction] having seen it. *)
Lemma initial_transactions_bypass_validation :
  exists tx a,
    tx ∈ transactions (__init__ (Some [overdraft]))
    /\ tx_amount tx = Some a
    /\ (a <=? 0)%float = true
    /\ (0 <? a)%float = false.
Proof.
  exists overdraft, (-5)%float. split; [apply list_elem_of_here|].
  repeat split; reflexivity.
Qed.

(** The test [amount <= 0] is false for NaN, so a NaN amount is stored. *)
Example nan_amount_is_stored :
  add_transaction "Income" nan "Typo" "Misc" (__init__ None)
  = (Ok (transaction_record 1 "Income" nan "Typo" "Misc"),
     mkLedger [transaction_record 1 "Income" nan "Typo" "Misc"] 2)
  /\ (0 <? nan)%float = false.
Proof. split; reflexivity. Qed.

(** C4, amended: in a ledger created without initial transactions and
    grown through [add_transaction] only, every stored transaction has a
    float amount for which the test [amount <= 0] is false; such an
    amount is above zero unless it is NaN. *)
Theorem stored_amounts_passed_validation
    (self : PersonalFinanceLedger) (tx : Transaction) :
  grown_from_empty self ->
  tx ∈ transactions self ->
  exists a,
    tx_amount tx = Some a
    /\ (a <=? 0)%float = false
    /\ (is_nan a = false -> (0 <? a)%float = true).
Proof.
  intros [calls ->]. rewrite run_adds_ledger. cbn.
  intros (a & k & _ & Hle & ->)%records_from_origin.
  exists (arg_amount a). split; [apply tx_amount_record|]. split; [done|].
  intros Hnan. destruct (Float64.passes_positive_or_nan _ Hle); congruence.
Qed.

Lemma stored_amounts_passed_validation_witness :
  exists a,
    tx_amount (transaction_record 2 "Income" 100 "Bonus" "Salary") = Some a
    /\ (a <=? 0)%float = false
    /\ (is_nan a = false -> (0 <? a)%float = true).
Proof.
  apply (stored_amounts_passed_validation (run_adds two_calls (__init__ None)).2).
  - exists two_calls. reflexivity.
  - apply list_elem_of_further, list_elem_of_here.
Defined.

(** C5, as stated, fails: each of the three values is rounded on its own,
    so the returned "net_balance" need not be the difference of the
    returned totals.  With an income of 1.00390625 and an expense of
    0.99609375 the summary is 1.0, 1.0 and 0.01. *)
Lemma rounded_totals_do_not_subtract :
  exists (s : gmap string float) (r_income r_expense r_net : float),
    get_summary refuse_text (run_adds near_one (__init__ None)).2
    = (Ok s, (run_adds near_one (__init__ None)).2)
    /\ s !! "total_income" = Some r_income
    /\ s !! "total_expense" = Some r_expense
    /\ s !! "net_balance" = Some r_net
    /\ (r_net =? r_income - r_expense)%float = false.
Proof.
  eexists _, _, _, _. split; [vm_compute; reflexivity|].
  repeat (split; [vm_compute; reflexivity|]). reflexivity.
Qed.

(** C5, amended: on a ledger grown from the empty one, the returned
    "net_balance" is [round(., 2)] of the difference of the unrounded
    totals, of which the returned "total_income" and "total_expense" are
    the roundings. *)
Theorem net_balance_rounds_the_difference
    (float_of_str : string -> result float) (self : PersonalFinanceLedger) :
  grown_from_empty self ->
  exists (s : gmap string float) (total_income total_expense : float),
    get_summary float_of_str self = (Ok s, self)
    /\ total_income = float_sum (amounts_of "Income" (transactions self))
    /\ total_expense = float_sum (amounts_of "Expense" (transactions self))
    /\ Ok <$> s !! "total_income" = Some (py_round2 total_income)
    /\ Ok <$> s !! "total_expense" = Some (py_round2 total_expense)
    /\ Ok <$> s !! "net_balance"
       = Some (py_round2 (total_income - total_expense)).
Proof.
  intros Hrec%grown_records.
  destruct (Float64.py_round2_total
              (float_sum (amounts_of "Income" (transactions self))))
    as [r_income Hi].
  destruct (Float64.py_round2_total
              (float_sum (amounts_of "Expense" (transactions self))))
    as [r_expense He].
  destruct (Float64.py_round2_total
              (float_sum (amounts_of "Income" (transactions self))
               - float_sum (amounts_of "Expense" (transactions self))))
    as [r_net Hn].
  eexists _, _, _. split.
  - eapply get_summary_unfold; [by apply summary_loop_records|done..].
  - rewrite Hi, He, Hn. repeat (split; [reflexivity|]). reflexivity.
Qed.

Lemma net_balance_rounds_the_difference_witness :
  exists (s : gmap string float),
    get_summary refuse_text (run_adds near_one (__init__ None)).2
    = (Ok s, (run_adds near_one (__init__ None)).2)
    /\ Ok <$> s !! "net_balance" = Some (py_round2 (1.00390625 - 0.99609375)).
Proof.
  destruct (net_balance_rounds_the_difference refuse_text
              (run_adds near_one (__init__ None)).2)
    as (s & ti & te & Hrun & -> & -> & _ & _ & Hnet).
  - exists near_one. reflexivity.
  - exists s. split; [exact Hrun | exact Hnet].
Defined.

(** C6, as stated, fails on a ledger that was given initial
    transactions: the counter starts at 1 whatever their ids, so the new
    last element can carry an id that an earlier element already has. *)
Lemma new_id_not_above_initial_ids :
  exists tx self',
    add_transaction "Income" 100 "Bonus" "Salary" (__init__ (Some [saved]))
    = (Ok tx, self')
    /\ get_transactions self' = (Ok [saved; tx], self')
    /\ tx_id saved = Some 1
    /\ tx_id tx = Some 1.
Proof.
  exists (transaction_record 1 "Income" 100 "Bonus" "Salary"),
    (mkLedger [saved; transaction_record 1 "Income" 100 "Bonus" "Salary"] 2).
  repeat split; reflexivity.
Qed.

(** C6, amended: a call with an amount above zero returns the record made
    of the counter's value and the four arguments, leaves the earlier
    transactions in place with that record added at the end, and moves the
    counter by one, which is all the state there is; [get_transactions]
    then shows the record last; and on a ledger created without initial
    transactions and grown through [add_transaction], its id is above the
    id of every earlier element. *)
Theorem add_transaction_appends
    (self : PersonalFinanceLedger) (type : string) (amount : float)
    (description category : string) :
  (0 <? amount)%float = true ->
  exists tx self',
    add_transaction type amount description category self = (Ok tx, self')
    /\ tx = transaction_record (transaction_id_counter self)
              type amount description category
    /\ tx_id tx = Some (transaction_id_counter self)
    /\ tx_kind tx = Some type
    /\ tx_amount tx = Some amount
    /\ tx !! "description" = Some (VStr description)
    /\ tx !! "category" = Some (VStr category)
    /\ self' = mkLedger (transactions self ++ [tx])
                 (transaction_id_counter self + 1)
    /\ length (transactions self') = S (length (transactions self))
    /\ get_transactions self' = (Ok (transactions self ++ [tx]), self')
    /\ last (transactions self') = Some tx
    /\ (grown_from_empty self ->
        forall tx0, tx0 ∈ transactions self ->
          exists k, tx_id tx0 = Some k /\ k < transaction_id_counter self).
Proof.
  intros Hpos%Float64.positive_passes.
  eexists _, _. split; [by apply add_transaction_accepts|]. cbn.
  repeat (split; [first [reflexivity | apply last_snoc]|]).
  split; [rewrite length_app; cbn; lia|].
  repeat (split; [first [reflexivity | apply last_snoc]|]).
  intros Hgrown tx0 Hin.
  destruct (grown_ids_below_counter self Hgrown tx0 Hin) as (k & ? & ?).
  exists k. split; [done | lia].
Qed.

Lemma add_transaction_appends_witness :
  exists tx self',
    add_transaction "Income" 100 "Bonus" "Salary"
      (run_adds [AddArgs "Expense" 25 "Groceries" "Food"] (__init__ None)).2
    = (Ok tx, self')
    /\ tx_id tx = Some 2
    /\ transactions self'
       = [transaction_record 1 "Expense" 25 "Groceries" "Food"; tx]
    /\ exists k,
         tx_id (transaction_record 1 "Expense" 25 "Groceries" "Food") = Some k
         /\ k < 2.
Proof.
  destruct (add_transaction_appends
              (run_adds [AddArgs "Expense" 25 "Groceries" "Food"] (__init__ None)).2
              "Income" 100 "Bonus" "Salary" eq_refl)
    as (tx & self' & Hrun & _ & Hid & _ & _ & _ & _ & Hself & _ & _ & _ & Hbelow).
  exists tx, self'. split; [exact Hrun|]. split; [exact Hid|].
  split; [now rewrite Hself|].
  apply Hbelow.
  - exists [AddArgs "Expense" 25 "Groceries" "Food"]. reflexivity.
  - apply list_elem_of_here.
Defined.

(** C7: with no transaction stored, as in a ledger just created,
    [get_summary] returns 0.0 for the income, the expense and the
    balance. *)
Theorem get_summary_empty
    (float_of_str : string -> result float) (counter : Z) :
  get_summary float_of_str (__init__ None)
  = (Ok {[ "total_income" := 0%float;
           "total_expense" := 0%float;
           "net_balance" := 0%float ]}, __init__ None)
  /\ get_summary float_of_str (mkLedger [] counter)
     = (Ok {[ "total_income" := 0%float;
              "total_expense" := 0%float;
              "net_balance" := 0%float ]}, mkLedger [] counter).
Proof. split; reflexivity. Qed.

(** C8: [get_summary] leaves the ledger, sequence and counter, as it
    found it, also when it raises; called again on the ledger it left, it
    returns the same result, so two calls in a row agree. *)
Theorem get_summary_has_no_effect
    (float_of_str : string -> result float) (self : PersonalFinanceLedger) :
  (get_summary float_of_str self).2 = self
  /\ transactions (get_summary float_of_str self).2 = transactions self
  /\ transaction_id_counter (get_summary float_of_str self).2
     = transaction_id_counter self
  /\ get_summary float_of_str (get_summary float_of_str self).2
     = get_summary float_of_str self
  /\ (first ← get_summary float_of_str;
      second ← get_summary float_of_str;
      mret (first, second)) self
     = (match (get_summary float_of_str self).1 with
        | Ok s => Ok (s, s)
        | Raise e => Raise e
        end, self).
Proof.
  pose proof (get_summary_state float_of_str self) as Hstate.
  rewrite Hstate. repeat (split; [reflexivity|]).
  unfold mbind at 1, M_bind at 1, bind at 1.
  destruct (get_summary float_of_str self) as [[s|e] self'] eqn:Hrun;
    cbn in Hstate; subst self'; [|reflexivity].
  unfold mbind, M_bind, bind. rewrite Hrun. reflexivity.
Qed.

(** C9, as stated, fails in its last sentence: [add_transaction] does
    not look at the type it is given, so a record whose kind is neither
    "Income" nor "Expense" is stored on a ledger that was created empty,
    and [get_summary] passes it over. *)
Lemma add_transaction_stores_other_kinds :
  add_transaction "Transfer" 40 "To savings" "Bank" (__init__ None)
  = (Ok (transaction_record 1 "Transfer" 40 "To savings" "Bank"),
     mkLedger [transaction_record 1 "Transfer" 40 "To savings" "Bank"] 2)
  /\ tx_kind (transaction_record 1 "Transfer" 40 "To savings" "Bank")
     = Some "Transfer"
  /\ bool_decide ("Transfer" = "Income") = false
  /\ bool_decide ("Transfer" = "Expense") = false
  /\ get_summary refuse_text
       (mkLedger [transaction_record 1 "Transfer" 40 "To savings" "Bank"] 2)
     = (Ok {[ "total_income" := 0%float;
              "total_expense" := 0%float;
              "net_balance" := 0%float ]},
        mkLedger [transaction_record 1 "Transfer" 40 "To savings" "Bank"] 2).
Proof. repeat split; reflexivity. Qed.

(** C9, amended: take a ledger in which one stored dictionary is singled
    out and [float] accepts the amounts the loop counts in the others.
    When the type of that dictionary is neither "Income" nor "Expense",
    [get_summary] returns the summary of the others, as if it were not
    there; when it has no "type", its amount is added to the expenses;
    when it has no "amount", 0.0 is added to the total of its kind.  In
    a ledger created empty and grown through [add_transaction] every
    stored transaction has both keys, so a dictionary without one comes
    from the initial transactions; its kind is the type the call passed,
    whatever it is, and so one of the two kinds when every call passed
    one of them. *)
Theorem get_summary_defaults (float_of_str : string -> result float) :
  let incomes := omap (counted_amount float_of_str "Income") in
  let expenses := omap (counted_amount float_of_str "Expense") in
  (forall (before after : Ledger) (tx : Transaction) (n : Z),
     Forall (convertible float_of_str) before ->
     Forall (convertible float_of_str) after ->
     let self := mkLedger (before ++ tx :: after) n in
     (forall v : value,
        tx !! "type" = Some v -> v <> VStr "Income" -> v <> VStr "Expense" ->
        get_summary float_of_str self
        = (summary_of_totals
             (float_sum (incomes before ++ incomes after))
             (float_sum (expenses before ++ expenses after)), self))
     /\ (forall a : float,
          tx !! "type" = None ->
          py_float float_of_str (default (VFloat 0) (tx !! "amount")) = Ok a ->
          get_summary float_of_str self
          = (summary_of_totals
               (float_sum (incomes before ++ incomes after))
               (float_sum (expenses before ++ a :: expenses after)), self))
     /\ (tx !! "amount" = None -> tx !! "type" = Some (VStr "Income") ->
         get_summary float_of_str self
         = (summary_of_totals
              (float_sum (incomes before ++ 0%float :: incomes after))
              (float_sum (expenses before ++ expenses after)), self))
     /\ (tx !! "amount" = None ->
         tx !! "type" = Some (VStr "Expense") \/ tx !! "type" = None ->
         get_summary float_of_str self
         = (summary_of_totals
              (float_sum (incomes before ++ incomes after))
              (float_sum (expenses before ++ 0%float :: expenses after)),
            self)))
  /\ (forall total_income total_expense : float,
        exists r_income r_expense r_net,
          py_round2 total_income = Ok r_income
          /\ py_round2 total_expense = Ok r_expense
          /\ py_round2 (total_income - total_expense) = Ok r_net
          /\ summary_of_totals total_income total_expense
             = Ok {[ "total_income" := r_income;
                     "total_expense" := r_expense;
                     "net_balance" := r_net ]})
  /\ (forall (totals : float * float) (tx : Transaction) (v : value),
        tx !! "type" = Some v -> v <> VStr "Income" -> v <> VStr "Expense" ->
        summary_step float_of_str totals tx = Ok totals)
  /\ (forall (before after : Ledger) (tx : Transaction) (v : value) (n : Z),
        tx !! "type" = Some v -> v <> VStr "Income" -> v <> VStr "Expense" ->
        (get_summary float_of_str (mkLedger (before ++ tx :: after) n)).1
        = (get_summary float_of_str (mkLedger (before ++ after) n)).1)
  /\ (forall (total_income total_expense : float) (tx : Transaction),
        tx !! "type" = None ->
        summary_step float_of_str (total_income, total_expense) tx
        = (x ← py_float float_of_str (default (VFloat 0) (tx !! "amount"));
           Ok (total_income, (total_expense + x)%float))
        /\ summary_step float_of_str (total_income, total_expense) tx
           = summary_step float_of_str (total_income, total_expense)
               (<["type" := VStr "Expense"]> tx))
  /\ (forall (total_income total_expense : float) (tx : Transaction),
        tx !! "amount" = None ->
        summary_step float_of_str (total_income, total_expense) tx
        = (let tx_type := default (VStr "Expense") (tx !! "type") in
           if py_eq_str tx_type "Income"
           then Ok ((total_income + 0)%float, total_expense)
           else if py_eq_str tx_type "Expense"
           then Ok (total_income, (total_expense + 0)%float)
           else Ok (total_income, total_expense))
        /\ summary_step float_of_str (total_income, total_expense) tx
           = summary_step float_of_str (total_income, total_expense)
               (<["amount" := VFloat 0]> tx))
  /\ (forall (self : PersonalFinanceLedger) (tx : Transaction),
        grown_from_empty self -> tx ∈ transactions self ->
        is_Some (tx !! "type") /\ is_Some (tx !! "amount"))
  /\ (forall (self : PersonalFinanceLedger) (type : string) (amount : float)
             (description category : string),
        (amount <=? 0)%float = false ->
        exists tx,
          last (transactions
                  (add_transaction type amount description category self).2)
          = Some tx
          /\ tx_kind tx = Some type)
  /\ (forall (calls : list add_args) (tx : Transaction),
        Forall (fun a => arg_type a = "Income" \/ arg_type a = "Expense") calls ->
        tx ∈ transactions (run_adds calls (__init__ None)).2 ->
        tx_kind tx = Some "Income" \/ tx_kind tx = Some "Expense").
Proof.
  cbv zeta.
  split; [|split; [|split; [apply summary_step_other_kind|];
                    split; [|split; [|split; [|split; [|split]]]]]].
  - intros before after tx n Hbefore Hafter.
    split; [|split; [|split]].
    + intros v Hv Hi He.
      destruct (other_kind_not_counted float_of_str tx v Hv Hi He)
        as (Hconv & Hinc & Hexp).
      rewrite get_summary_around by done. now rewrite Hinc, Hexp.
    + intros a Hnone Ha.
      destruct (untyped_counted_as_expense float_of_str tx a Hnone Ha)
        as (Hconv & Hinc & Hexp).
      rewrite get_summary_around by done. now rewrite Hinc, Hexp.
    + intros Hnone Hty.
      destruct (unpriced_counted_for_zero float_of_str tx "Income" Hnone)
        as (Hconv & Hinc & Hexp).
      { unfold kind_or_default. now rewrite Hty. }
      rewrite get_summary_around by done. now rewrite Hinc, Hexp.
    + intros Hnone Hty.
      destruct (unpriced_counted_for_zero float_of_str tx "Expense" Hnone)
        as (Hconv & Hinc & Hexp).
      { unfold kind_or_default. now destruct Hty as [-> | ->]. }
      rewrite get_summary_around by done. now rewrite Hinc, Hexp.
  - intros total_income total_expense. unfold summary_of_totals.
    destruct (Float64.py_round2_total total_income) as [r_income Hi].
    destruct (Float64.py_round2_total total_expense) as [r_expense He].
    destruct (Float64.py_round2_total (total_income - total_expense))
      as [r_net Hn].
    exists r_income, r_expense, r_net. rewrite Hi, He, Hn. by repeat split.
  - intros before after tx v n Hv Hi He.
    assert (Hloop : forall totals,
              summary_loop float_of_str (before ++ tx :: after) totals
              = summary_loop float_of_str (before ++ after) totals).
    { intros totals. rewrite !summary_loop_app.
      destruct (summary_loop float_of_str before totals) as [totals'|]; cbn;
        [|done].
      now rewrite (summary_step_other_kind _ _ _ v). }
    rewrite !get_summary_alt. cbn [fst transactions]. now rewrite Hloop.
  - intros ti te tx Hnone. unfold summary_step.
    rewrite lookup_insert_eq, lookup_insert_ne by done. rewrite Hnone.
    split; reflexivity.
  - intros ti te tx Hnone. unfold summary_step.
    rewrite lookup_insert_eq, lookup_insert_ne by done. rewrite Hnone.
    split; reflexivity.
  - intros self tx [calls ->]. rewrite run_adds_ledger. cbn.
    intros (a & k & _ & _ & ->)%records_from_origin.
    split; eexists; reflexivity.
  - intros self type amount description category Hle.
    rewrite add_transaction_accepts by done. cbn [snd transactions].
    eexists. split; [apply last_snoc | apply tx_kind_record].
  - intros calls tx Hkinds. rewrite run_adds_ledger. cbn.
    intros (a & k & Hin & _ & ->)%records_from_origin.
    rewrite tx_kind_record. rewrite Forall_forall in Hkinds.
    destruct (Hkinds a Hin) as [-> | ->]; auto.
Qed.

Lemma get_summary_defaults_witness :
  get_summary refuse_text (mkLedger ([saved] ++ untyped :: [unpriced]) 1)
  = (Ok {[ "total_income" := 50%float;
           "total_expense" := 12.5%float;
           "net_balance" := 37.5%float ]},
     mkLedger ([saved] ++ untyped :: [unpriced]) 1)
  /\ get_summary refuse_text (mkLedger ([saved] ++ transfer :: [untyped]) 1)
     = (Ok {[ "total_income" := 50%float;
              "total_expense" := 12.5%float;
              "net_balance" := 37.5%float ]},
        mkLedger ([saved] ++ transfer :: [untyped]) 1)
  /\ is_Some (transaction_record 2 "Income" 100 "Bonus" "Salary" !! "type")
  /\ (tx_kind (transaction_record 2 "Income" 100 "Bonus" "Salary") = Some "Income"
      \/ tx_kind (transaction_record 2 "Income" 100 "Bonus" "Salary")
         = Some "Expense").
Proof.
  destruct (get_summary_defaults refuse_text)
    as (Haround & _ & _ & _ & _ & _ & Hkeys & _ & Hkinds).
  assert (Hsaved : Forall (convertible refuse_text) [saved])
    by (constructor; [intros _; eexists; reflexivity | constructor]).
  assert (Hunpriced : Forall (convertible refuse_text) [unpriced])
    by (constructor; [intros _; eexists; reflexivity | constructor]).
  assert (Huntyped : Forall (convertible refuse_text) [untyped])
    by (constructor; [intros _; eexists; reflexivity | constructor]).
  split.
  { destruct (Haround [saved] [unpriced] untyped 1 Hsaved Hunpriced)
      as (_ & Hmissing & _).
    rewrite (Hmissing 12.5%float eq_refl eq_refl). reflexivity. }
  split.
  { destruct (Haround [saved] [untyped] transfer 1 Hsaved Huntyped)
      as (Hother & _).
    rewrite (Hother (VStr "Transfer")) by done. reflexivity. }
  split.
  - apply (Hkeys (run_adds two_calls (__init__ None)).2).
    + exists two_calls. reflexivity.
    + apply list_elem_of_further, list_elem_of_here.
  - apply (Hkinds two_calls).
    + constructor; [right; reflexivity|].
      constructor; [left; reflexivity | constructor].
    + apply list_elem_of_further, list_elem_of_here.
Defined.

(** C10: the constructor sets the counter to 1 whatever list it is given,
    so the first call that [add_transaction] accepts on such a ledger
    stores a record with id 1 behind the initial ones; an initial record
    that already has id 1 then shares its id with the new one. *)
Theorem initial_transactions_leave_counter_at_one
    (txs : Ledger) (type : string) (amount : float)
    (description category : string) :
  (amount <=? 0)%float = false ->
  let tx := transaction_record 1 type amount description category in
  transaction_id_counter (__init__ (Some txs)) = 1
  /\ add_transaction type amount description category (__init__ (Some txs))
     = (Ok tx, mkLedger (txs ++ [tx]) 2)
  /\ tx_id tx = Some 1
  /\ (forall (i : nat) (tx0 : Transaction),
        txs !! i = Some tx0 -> tx_id tx0 = Some 1 ->
        (txs ++ [tx]) !! i = Some tx0
        /\ (txs ++ [tx]) !! length txs = Some tx
        /\ i <> length txs
        /\ tx_id tx0 = tx_id tx).
Proof.
  intros Hle tx. split; [reflexivity|].
  split; [now rewrite add_transaction_accepts|]. split; [reflexivity|].
  intros i tx0 Hi Hid. pose proof (lookup_lt_Some _ _ _ Hi) as Hlt.
  split; [by apply lookup_app_l_Some|].
  split; [by rewrite list_lookup_middle|].
  split; [lia | now rewrite Hid].
Qed.

Lemma initial_transactions_leave_counter_at_one_witness :
  add_transaction "Income" 100 "Bonus" "Salary" (__init__ (Some [overdraft]))
  = (Ok (transaction_record 1 "Income" 100 "Bonus" "Salary"),
     mkLedger [overdraft; transaction_record 1 "Income" 100 "Bonus" "Salary"] 2)
  /\ tx_id overdraft = tx_id (transaction_record 1 "Income" 100 "Bonus" "Salary").
Proof.
  destruct (initial_transactions_leave_counter_at_one
              [overdraft] "Income" 100 "Bonus" "Salary" eq_refl)
    as (_ & Hrun & _ & Hclash).
  split; [exact Hrun|].
  apply (Hclash 0%nat overdraft); reflexivity.
Defined.

(** * Further properties of the ledger *)

(** ** What the guard of [add_transaction] lets through *)

Lemma nan_passes_guard (a : float) :
  is_nan a = true -> (a <=? 0)%float = false.
Proof.
  rewrite Float64.is_nan_spec, Float64.leb_zero.
  destruct (Prim2SF a) as [[]|[]| |[] m e]; try (cbn; congruence).
  unfold SFeqb, SFcompare.
  rewrite Z.compare_refl, Pos.compare_cont_refl; cbn; congruence.
Qed.

(** X1: [add_transaction] returns a transaction exactly when the amount is
    above zero or is NaN, whatever the other arguments and the ledger; in
    particular it accepts an infinite amount and refuses both zeros. *)
Theorem add_transaction_accepts_iff
    (self : PersonalFinanceLedger) (type : string) (amount : float)
    (description category : string) :
  (raised (add_transaction type amount description category self).1 = false
   <-> (0 <? amount)%float = true \/ is_nan amount = true)
  /\ raised (add_transaction type infinity description category self).1 = false
  /\ raised (add_transaction type 0 description category self).1 = true
  /\ raised (add_transaction type (-0) description category self).1 = true.
Proof.
  split; [|repeat split; reflexivity].
  unfold add_transaction.
  destruct (amount <=? 0)%float eqn:Hle; cbn; split; try done.
  - intros [Hpos%Float64.positive_passes | Hnan%nan_passes_guard]; congruence.
  - intros _. now apply Float64.passes_positive_or_nan.
Qed.

(** X2: whatever ledger a sequence of [add_transaction] calls starts
    from, every call has an outcome, the transactions stored before stay
    where they were and the returned ones follow them in order, the
    counter has moved by one per stored transaction and never goes down,
    and as many transactions were stored as there were amounts that pass
    the guard. *)
Theorem run_adds_only_appends
    (calls : list add_args) (self : PersonalFinanceLedger) :
  let outcome := run_adds calls self in
  length outcome.1 = length calls
  /\ transactions outcome.2 = transactions self ++ successes outcome.1
  /\ transaction_id_counter outcome.2
     = transaction_id_counter self + Z.of_nat (length (successes outcome.1))
  /\ transaction_id_counter self <= transaction_id_counter outcome.2
  /\ length (successes outcome.1)
     = length (filter (fun a => accepted a = true) calls).
Proof.
  cbv zeta. rewrite run_adds_length, run_adds_ledger, run_adds_successes. cbn.
  repeat split; try lia. apply records_from_length.
Qed.

(** X3: a refused call leaves no trace: the ledger after a sequence of
    calls is the ledger after the accepted calls alone, so a refusal uses
    no id. *)
Theorem refused_calls_leave_no_trace
    (calls : list add_args) (self : PersonalFinanceLedger) :
  (run_adds calls self).2
  = (run_adds (filter (fun a => accepted a = true) calls) self).2
  /\ successes (run_adds calls self).1
     = successes (run_adds (filter (fun a => accepted a = true) calls) self).1.
Proof.
  rewrite !run_adds_ledger, !run_adds_successes, !records_from_filter. done.
Qed.

(** X4: on any ledger, whatever dictionaries it was given, in which
    [float] accepts the amount of every dictionary the loop counts,
    [get_summary] returns and leaves the ledger as it is: a dictionary
    counts as "Expense" when it has no "type" and for 0.0 when it has no
    "amount", one whose type is neither "Income" nor "Expense" is passed
    over without its amount being looked at, and the totals are the sums
    of the converted amounts, rounded. *)
Theorem get_summary_on_any_ledger
    (float_of_str : string -> result float) (self : PersonalFinanceLedger) :
  Forall (convertible float_of_str) (transactions self) ->
  let total_income :=
    float_sum (omap (counted_amount float_of_str "Income") (transactions self)) in
  let total_expense :=
    float_sum (omap (counted_amount float_of_str "Expense") (transactions self)) in
  get_summary float_of_str self
  = (summary_of_totals total_income total_expense, self)
  /\ exists s, summary_of_totals total_income total_expense = Ok s.
Proof.
  intros Hconv total_income total_expense.
  split; [|apply summary_of_totals_returns].
  rewrite get_summary_alt, summary_loop_convertible by done. reflexivity.
Qed.

Lemma get_summary_on_any_ledger_witness :
  Forall (convertible refuse_text) (transactions mixed_ledger)
  /\ get_summary refuse_text mixed_ledger
     = (Ok {[ "total_income" := 50%float;
              "total_expense" := 15.5%float;
              "net_balance" := 34.5%float ]}, mixed_ledger).
Proof.
  assert (Hconv : Forall (convertible refuse_text) (transactions mixed_ledger)).
  { unfold mixed_ledger. cbn [transactions].
    repeat (apply List.Forall_cons;
            [intros Hcounted; first [discriminate Hcounted | eexists; reflexivity]|]).
    apply List.Forall_nil. }
  split; [exact Hconv|].
  rewrite (proj1 (get_summary_on_any_ledger refuse_text mixed_ledger Hconv)).
  reflexivity.
Defined.

(** X5: when [float] refuses the amount of a counted dictionary and
    accepts those of the counted ones before it, [get_summary] raises what
    [float] raised, whatever follows, and leaves the ledger as it is. *)
Theorem get_summary_raises_at_first_refusal
    (float_of_str : string -> result float)
    (before after : Ledger) (tx : Transaction) (e : exn) (counter : Z) :
  Forall (convertible float_of_str) before ->
  is_counted tx = true ->
  py_float float_of_str (amount_or_default tx) = Raise e ->
  get_summary float_of_str (mkLedger (before ++ tx :: after) counter)
  = (Raise e, mkLedger (before ++ tx :: after) counter).
Proof.
  intros Hbefore Hcounted Hraise.
  rewrite get_summary_alt. cbn [transactions].
  now rewrite (summary_loop_refused _ before after tx e).
Qed.

Lemma get_summary_raises_at_first_refusal_witness :
  get_summary refuse_text (mkLedger ([saved; untyped] ++ oversized :: [unpriced]) 1)
  = (Raise (OverflowError "int too large to convert to float"),
     mkLedger ([saved; untyped] ++ oversized :: [unpriced]) 1).
Proof.
  apply (get_summary_raises_at_first_refusal refuse_text [saved; untyped]
           [unpriced] oversized).
  - repeat (apply List.Forall_cons; [intros _; eexists; reflexivity|]).
    apply List.Forall_nil.
  - reflexivity.
  - reflexivity.
Defined.

(** X6: [get_summary] reads the "type" and the "amount" of the stored
    dictionaries and nothing else: two ledgers that agree on these two
    keys, position by position, have the same summary, whatever their
    ids, descriptions, categories and counters. *)
Theorem get_summary_reads_type_and_amount
    (float_of_str : string -> result float)
    (self1 self2 : PersonalFinanceLedger) :
  (fun tx : Transaction => (tx !! "type", tx !! "amount")) <$> transactions self1
  = (fun tx : Transaction => (tx !! "type", tx !! "amount")) <$> transactions self2 ->
  (get_summary float_of_str self1).1 = (get_summary float_of_str self2).1.
Proof.
  intros Heq. rewrite !get_summary_alt. cbn [fst].
  now rewrite (summary_loop_reads_two_keys _ _ _ _ Heq).
Qed.

Lemma get_summary_reads_type_and_amount_witness :
  (get_summary refuse_text
     (mkLedger [transaction_record 1 "Income" 50 "Salary" "Work"] 2)).1
  = (get_summary refuse_text
       (mkLedger [transaction_record 9 "Income" 50 "Gift" "Family"] 1)).1.
Proof.
  apply (get_summary_reads_type_and_amount refuse_text
           (mkLedger [transaction_record 1 "Income" 50 "Salary" "Work"] 2)
           (mkLedger [transaction_record 9 "Income" 50 "Gift" "Family"] 1)).
  reflexivity.
Defined.

Lemma amounts_of_snoc (kind : string) (txs : Ledger) (tx : Transaction) :
  amounts_of kind (txs ++ [tx]) = amounts_of kind txs ++ amounts_of kind [tx].
Proof. unfold amounts_of. apply omap_app. Qed.

(** X7: on a ledger of records, a call that [add_transaction] accepts
    moves the summary as follows: with type "Income" the amount is added
    to the unrounded income total, with type "Expense" to the unrounded
    expense total, and with any other type, which [add_transaction] does
    not refuse, the summary stays as it was. *)
Theorem summary_after_add
    (float_of_str : string -> result float) (self : PersonalFinanceLedger)
    (type : string) (amount : float) (description category : string) :
  Forall is_record (transactions self) ->
  (amount <=? 0)%float = false ->
  let total_income := float_sum (amounts_of "Income" (transactions self)) in
  let total_expense := float_sum (amounts_of "Expense" (transactions self)) in
  let self' := (add_transaction type amount description category self).2 in
  get_summary float_of_str self
  = (summary_of_totals total_income total_expense, self)
  /\ get_summary float_of_str self'
     = (summary_of_totals
          (if bool_decide (type = "Income")
           then (total_income + amount)%float else total_income)
          (if bool_decide (type = "Expense")
           then (total_expense + amount)%float else total_expense),
        self').
Proof.
  intros Hrec Hle total_income total_expense self'.
  assert (Hrec' : Forall is_record (transactions self')).
  { unfold self'. rewrite add_transaction_accepts by done. cbn.
    apply Forall_app. split; [done|]. constructor; [|constructor].
    split; eexists; reflexivity. }
  rewrite !get_summary_alt, !summary_loop_records by done. cbn [fst snd].
  split; [reflexivity|]. f_equal.
  unfold self'. rewrite add_transaction_accepts by done. cbn [snd transactions].
  rewrite !amounts_of_snoc, !foldl_app.
  rewrite !(amounts_of_cons _ _ [] type amount) by reflexivity.
  unfold total_income, total_expense, float_sum.
  repeat case_bool_decide; simplify_eq; reflexivity.
Qed.

Lemma summary_after_add_witness :
  get_summary refuse_text
    (add_transaction "Expense" 12.5 "Lunch" "Food"
       (run_adds two_calls (__init__ None)).2).2
  = (Ok {[ "total_income" := 100%float;
           "total_expense" := 37.5%float;
           "net_balance" := 62.5%float ]},
     (add_transaction "Expense" 12.5 "Lunch" "Food"
        (run_adds two_calls (__init__ None)).2).2).
Proof.
  destruct (summary_after_add refuse_text (run_adds two_calls (__init__ None)).2
              "Expense" 12.5 "Lunch" "Food") as [_ Hafter].
  - repeat (apply List.Forall_cons; [split; eexists; reflexivity|]).
    apply List.Forall_nil.
  - reflexivity.
  - rewrite Hafter. reflexivity.
Defined.

(** * Properties of the command-line front end *)

Section FrontEndFacts.

Variable float_of_str : string -> result float.
Variable str_of_float : float -> string.

(** A record built by [add_transaction] is always formatted. *)
Lemma format_record_done (id : Z) (type : string) (amount : float)
    (description category : string) :
  exists line,
    _format_transaction float_of_str str_of_float
      (transaction_record id type amount description category)
    = Done line.
Proof. eexists. reflexivity. Qed.

(** A dictionary without a "type" is refused before anything else is
    looked at. *)
Lemma format_without_type (tx : Transaction) :
  tx !! "type" = None ->
  _format_transaction float_of_str str_of_float tx = Failed (KeyError "type").
Proof. intros H. unfold _format_transaction, subscript. now rewrite H. Qed.

(** The two choices of the parser normalise to the two kinds. *)
Lemma capitalize_choice (c : type_choice) :
  capitalize (choice_text c) = match c with
                               | income => "Income"
                               | expense => "Expense"
                               end.
Proof. now destruct c. Qed.

(** What [cli_add_transaction] does, by the text of the amount. *)
Lemma cli_add_transaction_unfold (args : add_namespace) (w : world) :
  cli_add_transaction float_of_str str_of_float args w
  = match float_of_str (ns_amount args) with
    | Raise (ValueError msg) =>
        (Done tt,
         mkWorld (ledger w)
           (stdout w ++ [nl +:+ "❌ Error adding transaction: " +:+ msg]))
    | Raise (OverflowError msg) =>
        (Done tt,
         mkWorld (ledger w)
           (stdout w ++ [nl +:+ "❌ An unexpected error occurred: " +:+ msg]))
    | Ok amount =>
        if (amount <=? 0)%float then
          (Done tt,
           mkWorld (ledger w)
             (stdout w ++ [nl +:+ "❌ Error adding transaction: "
                           +:+ "Amount must be a positive number."]))
        else
          let new_tx :=
            transaction_record (transaction_id_counter (ledger w))
              (capitalize (choice_text (ns_type args))) amount
              (ns_description args) (ns_category args) in
          (Done tt,
           mkWorld
             (mkLedger (transactions (ledger w) ++ [new_tx])
                (transaction_id_counter (ledger w) + 1))
             (stdout w
              ++ [nl +:+ "✅ Transaction added successfully!"]
              ++ match _format_transaction float_of_str str_of_float new_tx with
                 | Done line => [line]
                 | Failed _ => []
                 end))
    end.
Proof.
  unfold cli_add_transaction, try_except, mbind, CLI_bind, pure.
  destruct (float_of_str (ns_amount args)) as [amount|[msg|msg]];
    cbn [of_result]; [|reflexivity..].
  rewrite capitalize_choice.
  assert (Hkind : forall c : type_choice,
            bool_decide
              (match c with income => "Income" | expense => "Expense" end
               ∉ ["Income"; "Expense"]) = false)
    by (intros []; reflexivity).
  rewrite Hkind. unfold call.
  destruct (amount <=? 0)%float eqn:Hle.
  - rewrite add_transaction_rejects by done. reflexivity.
  - rewrite add_transaction_accepts by done. cbn [of_result].
    unfold print. cbn [ledger stdout].
    destruct (format_record_done (transaction_id_counter (ledger w))
                (match ns_type args with
                 | income => "Income"
                 | expense => "Expense"
                 end) amount (ns_description args) (ns_category args))
      as [line Hline].
    rewrite Hline. cbn [ledger stdout]. now rewrite <- app_assoc.
Qed.

End FrontEndFacts.

Section FrontEndClaims.

Variable float_of_str : string -> result float.
Variable str_of_float : float -> string.

Lemma cli_add_transaction_ledger (args : add_namespace) (w : world) :
  ledger (cli_add_transaction float_of_str str_of_float args w).2
  = match request_call float_of_str args with
    | Some a => (call_add a (ledger w)).2
    | None => ledger w
    end.
Proof.
  rewrite cli_add_transaction_unfold. unfold request_call.
  destruct (float_of_str (ns_amount args)) as [amount|[msg|msg]]; try done.
  unfold call_add. cbn [arg_type arg_amount arg_description arg_category].
  destruct (amount <=? 0)%float eqn:Hle.
  - now rewrite add_transaction_rejects.
  - now rewrite add_transaction_accepts.
Qed.

Lemma run_cli_adds_ledger (requests : list add_namespace) (w : world) :
  ledger (run_cli_adds float_of_str str_of_float requests w)
  = (run_adds (omap (request_call float_of_str) requests) (ledger w)).2.
Proof.
  revert w. induction requests as [|args requests IH]; intros w; [done|].
  cbn [run_cli_adds omap list_omap]. rewrite IH, cli_add_transaction_ledger.
  destruct (request_call float_of_str args) as [a|]; [|done].
  cbn [run_adds]. destruct (call_add a (ledger w)) as [r self'].
  cbn [snd]. now destruct (run_adds _ self').
Qed.

Lemma print_transactions_all (txs : Ledger) (w : world) :
  Forall (printable float_of_str str_of_float) txs ->
  print_transactions float_of_str str_of_float txs w
  = (Done tt,
     mkWorld (ledger w) (stdout w ++ formatted float_of_str str_of_float txs)).
Proof.
  intros Hall. revert w.
  induction Hall as [|tx txs [line Hline] _ IH]; intros w.
  - cbn. rewrite app_nil_r. now destruct w.
  - cbn [print_transactions]. unfold mbind, CLI_bind, pure, print at 1.
    rewrite Hline, IH. cbn [ledger stdout]. unfold formatted.
    cbn [omap list_omap]. rewrite Hline. now rewrite <- app_assoc.
Qed.

Lemma print_transactions_stops (before after : Ledger) (tx : Transaction)
    (e : error) (w : world) :
  Forall (printable float_of_str str_of_float) before ->
  _format_transaction float_of_str str_of_float tx = Failed e ->
  print_transactions float_of_str str_of_float (before ++ tx :: after) w
  = (Failed e,
     mkWorld (ledger w) (stdout w ++ formatted float_of_str str_of_float before)).
Proof.
  intros Hall Hfail. revert w.
  induction Hall as [|tx0 txs [line Hline] _ IH]; intros w.
  - cbn [app print_transactions]. unfold mbind, CLI_bind, pure.
    rewrite Hfail. cbn. rewrite app_nil_r. now destruct w.
  - cbn [app print_transactions]. unfold mbind, CLI_bind, pure, print at 1.
    rewrite Hline. fold (@mbind CLI _). rewrite IH. cbn [ledger stdout].
    unfold formatted. cbn [omap list_omap]. rewrite Hline.
    now rewrite <- app_assoc.
Qed.

End FrontEndClaims.

(** X8: [cli_add_transaction] never raises.  When the text of the amount
    is not a number, or is a number that [add_transaction] refuses, it
    prints one line and leaves the ledger as it was.  Otherwise the
    ledger is the one [add_transaction] leaves for the type "Income" or
    "Expense" of the request, with one more transaction of that kind, and
    two lines are printed, the second being the new transaction as
    [_format_transaction] writes it. *)
Theorem cli_add_transaction_is_safe
    (float_of_str : string -> result float) (str_of_float : float -> string)
    (args : add_namespace) (w : world) :
  let kind := match ns_type args with
              | income => "Income"
              | expense => "Expense"
              end in
  let w' := (cli_add_transaction float_of_str str_of_float args w).2 in
  (cli_add_transaction float_of_str str_of_float args w).1 = Done tt
  /\ (forall e, float_of_str (ns_amount args) = Raise e ->
        ledger w' = ledger w /\ length (stdout w') = S (length (stdout w)))
  /\ (forall amount, float_of_str (ns_amount args) = Ok amount ->
        (amount <=? 0)%float = true ->
        ledger w' = ledger w
        /\ stdout w' = stdout w ++ [nl +:+ "❌ Error adding transaction: "
                                    +:+ "Amount must be a positive number."])
  /\ (forall amount, float_of_str (ns_amount args) = Ok amount ->
        (amount <=? 0)%float = false ->
        exists new_tx line,
          add_transaction kind amount (ns_description args) (ns_category args)
            (ledger w)
          = (Ok new_tx, ledger w')
          /\ transactions (ledger w') = transactions (ledger w) ++ [new_tx]
          /\ tx_kind new_tx = Some kind
          /\ _format_transaction float_of_str str_of_float new_tx = Done line
          /\ stdout w' = stdout w ++ [nl +:+ "✅ Transaction added successfully!";
                                      line]).
Proof.
  cbv zeta. rewrite cli_add_transaction_unfold, capitalize_choice.
  split; [|split; [|split]].
  - destruct (float_of_str (ns_amount args)) as [amount|[msg|msg]]; try done.
    now destruct (amount <=? 0)%float.
  - intros e ->. destruct e; cbn; rewrite length_app; cbn; split; try done; lia.
  - intros amount -> ->. done.
  - intros amount -> Hle. rewrite Hle.
    destruct (format_record_done float_of_str str_of_float
                (transaction_id_counter (ledger w))
                (match ns_type args with
                 | income => "Income"
                 | expense => "Expense"
                 end) amount (ns_description args) (ns_category args))
      as [line Hline].
    eexists _, line. cbn [snd ledger stdout].
    split; [by apply add_transaction_accepts|]. split; [done|].
    split; [apply tx_kind_record|]. split; [exact Hline|].
    now rewrite Hline.
Qed.

Lemma cli_add_transaction_is_safe_witness :
  (let w' := (cli_add_transaction refuse_text no_float_text
                (AddNamespace income "12 dollars" "Tip" "Misc")
                (mkWorld (__init__ None) [])).2 in
   ledger w' = __init__ None /\ length (stdout w') = 1%nat)
  /\ exists e, refuse_text "12 dollars" = Raise e.
Proof.
  split; [|eexists; reflexivity].
  destruct (cli_add_transaction_is_safe refuse_text no_float_text
              (AddNamespace income "12 dollars" "Tip" "Misc")
              (mkWorld (__init__ None) [])) as (_ & Hbad & _).
  exact (Hbad _ eq_refl).
Defined.

(** X9: as far as the ledger goes, a sequence of "add" requests acts as
    the sequence of [add_transaction] calls of the requests whose amount
    text is a number, with the type put in capitals; so on a ledger
    created empty every stored transaction has kind "Income" or
    "Expense", which [add_transaction] alone does not ensure. *)
Theorem cli_adds_act_as_add_transaction
    (float_of_str : string -> result float) (str_of_float : float -> string)
    (requests : list add_namespace) (w : world) :
  ledger (run_cli_adds float_of_str str_of_float requests w)
  = (run_adds (omap (request_call float_of_str) requests) (ledger w)).2
  /\ (forall (out : list string) (tx : Transaction),
        tx ∈ transactions
               (ledger (run_cli_adds float_of_str str_of_float requests
                          (mkWorld (__init__ None) out))) ->
        tx_kind tx = Some "Income" \/ tx_kind tx = Some "Expense").
Proof.
  split; [apply run_cli_adds_ledger|].
  intros out tx. rewrite run_cli_adds_ledger, run_adds_ledger. cbn.
  intros (a & k & Hin & _ & ->)%records_from_origin.
  rewrite tx_kind_record.
  apply list_elem_of_omap in Hin as (args & _ & Hcall).
  unfold request_call in Hcall.
  destruct (float_of_str (ns_amount args)); [|done].
  injection Hcall as <-. cbn. rewrite capitalize_choice.
  destruct (ns_type args); auto.
Qed.

Lemma print_transactions_ledger
    (float_of_str : string -> result float) (str_of_float : float -> string)
    (txs : Ledger) (w : world) :
  ledger (print_transactions float_of_str str_of_float txs w).2 = ledger w.
Proof.
  revert w. induction txs as [|tx txs IH]; intros w; [done|].
  cbn [print_transactions]. unfold mbind, CLI_bind, pure, print at 1.
  destruct (_format_transaction float_of_str str_of_float tx); [|done].
  fold (@mbind CLI _). now rewrite IH.
Qed.

Lemma grown_printable
    (float_of_str : string -> result float) (str_of_float : float -> string)
    (self : PersonalFinanceLedger) :
  grown_from_empty self ->
  Forall (printable float_of_str str_of_float) (transactions self).
Proof.
  intros [calls ->]. rewrite run_adds_ledger. cbn.
  apply Forall_forall. intros tx (a & k & _ & _ & ->)%records_from_origin.
  apply format_record_done.
Qed.

Lemma formatted_length
    (float_of_str : string -> result float) (str_of_float : float -> string)
    (txs : Ledger) :
  Forall (printable float_of_str str_of_float) txs ->
  length (formatted float_of_str str_of_float txs) = length txs.
Proof.
  induction 1 as [|tx txs [line Hline] _ IH]; [done|].
  unfold formatted in *. cbn [omap list_omap]. rewrite Hline. cbn.
  now rewrite IH.
Qed.

(** X10: [cli_view_transactions] leaves the ledger as it was, whatever
    happens.  On a ledger with no transaction it prints the one line that
    says so.  On a ledger created empty and grown through
    [add_transaction] it does not raise: it prints the heading, one line
    per stored transaction in insertion order, and the closing rule. *)
Theorem cli_view_transactions_lists_the_ledger
    (float_of_str : string -> result float) (str_of_float : float -> string)
    (w : world) :
  ledger (cli_view_transactions float_of_str str_of_float w).2 = ledger w
  /\ (transactions (ledger w) = [] ->
      cli_view_transactions float_of_str str_of_float w
      = (Done tt,
         mkWorld (ledger w)
           (stdout w
            ++ [nl +:+ tab
                +:+ "The ledger is empty. Use 'add' to record a transaction."])))
  /\ (transactions (ledger w) <> [] ->
      grown_from_empty (ledger w) ->
      cli_view_transactions float_of_str str_of_float w
      = (Done tt,
         mkWorld (ledger w)
           (stdout w
            ++ [nl +:+ "--- Transaction History ---"]
            ++ formatted float_of_str str_of_float (transactions (ledger w))
            ++ ["---------------------------" +:+ nl]))
      /\ length (formatted float_of_str str_of_float (transactions (ledger w)))
         = length (transactions (ledger w))).
Proof.
  unfold cli_view_transactions, mbind, CLI_bind, call, get_transactions.
  unfold mbind, M_bind, bind, get_self, mret, M_ret, ret. cbn [of_result].
  destruct w as [self out]. cbn [ledger stdout].
  destruct (transactions self) as [|tx txs] eqn:Htxs.
  - repeat split; try done.
  - split; [|split; [done|]].
    + unfold print at 1. cbn [ledger stdout].
      pose proof (print_transactions_ledger float_of_str str_of_float
                    (tx :: txs)
                    (mkWorld self (out ++ [nl +:+ "--- Transaction History ---"])))
        as Hkeep.
      destruct (print_transactions _ _ _ _) as [[[]|e] w']; cbn in *; done.
    + intros _ Hgrown.
      pose proof (grown_printable float_of_str str_of_float self Hgrown) as Hall.
      rewrite Htxs in Hall. split; [|by apply formatted_length].
      unfold print at 1. cbn [ledger stdout].
      rewrite print_transactions_all by done. cbn [ledger stdout].
      unfold print. cbn [ledger stdout]. now rewrite <- !app_assoc.
Qed.

Lemma cli_view_transactions_lists_the_ledger_witness :
  length (stdout (cli_view_transactions refuse_text no_float_text
                    (mkWorld (run_adds two_calls (__init__ None)).2 [])).2)
  = 4%nat.
Proof.
  destruct (cli_view_transactions_lists_the_ledger refuse_text no_float_text
              (mkWorld (run_adds two_calls (__init__ None)).2 []))
    as (_ & _ & Hgrown).
  destruct Hgrown as [Hrun Hlen].
  - discriminate.
  - exists two_calls. reflexivity.
  - rewrite Hrun. cbn [snd stdout]. rewrite !length_app, Hlen. reflexivity.
Defined.

(** X11: when [_format_transaction] refuses a stored dictionary and
    formats the ones before it, [cli_view_transactions] raises what it
    raised, after the heading and the lines of the dictionaries before,
    and prints nothing for it nor after it, not even the closing rule; the
    ledger is as it was.  A dictionary without a "type", which
    [get_summary] counts as an expense, is refused with [KeyError]. *)
Theorem cli_view_transactions_stops_at_first_failure
    (float_of_str : string -> result float) (str_of_float : float -> string)
    (before after : Ledger) (tx : Transaction) (e : error)
    (counter : Z) (out : list string) :
  Forall (printable float_of_str str_of_float) before ->
  _format_transaction float_of_str str_of_float tx = Failed e ->
  cli_view_transactions float_of_str str_of_float
    (mkWorld (mkLedger (before ++ tx :: after) counter) out)
  = (Failed e,
     mkWorld (mkLedger (before ++ tx :: after) counter)
       (out ++ [nl +:+ "--- Transaction History ---"]
        ++ formatted float_of_str str_of_float before))
  /\ (tx !! "type" = None -> e = KeyError "type").
Proof.
  intros Hall Hfail. split.
  - unfold cli_view_transactions, mbind, CLI_bind, call, get_transactions.
    unfold mbind, M_bind, bind, get_self, mret, M_ret, ret. cbn [of_result].
    cbn [ledger stdout transactions].
    destruct (before ++ tx :: after) as [|tx0 txs] eqn:Htxs.
    { now destruct before. }
    unfold print at 1. cbn [ledger stdout]. rewrite <- Htxs.
    rewrite (print_transactions_stops _ _ before after tx e) by done.
    cbn [ledger stdout]. now rewrite <- app_assoc.
  - intros Hnone. rewrite (format_without_type _ _ tx Hnone) in Hfail.
    congruence.
Qed.

Lemma cli_view_transactions_stops_at_first_failure_witness :
  exists line,
    cli_view_transactions refuse_text no_float_text
      (mkWorld (mkLedger ([saved] ++ untyped :: [unpriced]) 1) [])
    = (Failed (KeyError "type"),
       mkWorld (mkLedger ([saved] ++ untyped :: [unpriced]) 1)
         ([] ++ [nl +:+ "--- Transaction History ---"] ++ [line])).
Proof.
  destruct (format_record_done refuse_text no_float_text
              1 "Income" 50 "Salary" "Work") as [line Hline].
  exists line.
  destruct (cli_view_transactions_stops_at_first_failure
              refuse_text no_float_text [saved] [unpriced] untyped
              (KeyError "type") 1 []) as [Hrun _].
  - constructor; [by exists line | constructor].
  - reflexivity.
  - rewrite Hrun. unfold formatted. cbn [omap list_omap].
    unfold saved. now rewrite Hline.
Defined.

(** The dictionary [get_summary] returns has the three keys. *)
Lemma summary_of_totals_keys (total_income total_expense : float)
    (s : gmap string float) :
  summary_of_totals total_income total_expense = Ok s ->
  exists r_income r_expense r_net,
    s = {[ "total_income" := r_income;
           "total_expense" := r_expense;
           "net_balance" := r_net ]}.
Proof.
  unfold summary_of_totals.
  destruct (py_round2 total_income) as [r_income|]; cbn; [|done].
  destruct (py_round2 total_expense) as [r_expense|]; cbn; [|done].
  destruct (py_round2 (total_income - total_expense)) as [r_net|]; cbn; [|done].
  intros [= <-]. eauto.
Qed.

(** The five lines of a summary. *)
Definition summary_lines (total_income total_expense net_balance : float)
    : list string :=
  [ nl +:+ "--- Financial Summary ---";
    "Total Income:  " +:+ (esc +:+ "[92m") +:+ "$"
      +:+ format_2f total_income +:+ (esc +:+ "[0m");
    "Total Expense: " +:+ (esc +:+ "[91m") +:+ "-$"
      +:+ format_2f total_expense +:+ (esc +:+ "[0m");
    "Net Balance:   " +:+ (esc +:+ "[94m")
      +:+ (if (0 <=? net_balance)%float
           then esc +:+ "[92m" else esc +:+ "[91m")
      +:+ "$" +:+ format_2f net_balance +:+ (esc +:+ "[0m");
    "---------------------------" +:+ nl ].

Lemma cli_get_summary_returns
    (float_of_str : string -> result float) (w : world)
    (total_income total_expense net_balance : float) :
  (get_summary float_of_str (ledger w)).1
  = Ok {[ "total_income" := total_income;
          "total_expense" := total_expense;
          "net_balance" := net_balance ]} ->
  cli_get_summary float_of_str w
  = (Done tt,
     mkWorld (ledger w)
       (stdout w ++ summary_lines total_income total_expense net_balance)).
Proof.
  intros Hs. pose proof (get_summary_state float_of_str (ledger w)) as Hstate.
  unfold cli_get_summary, mbind, CLI_bind, call. 
  destruct (get_summary float_of_str (ledger w)) as [r self'].
  cbn in Hs, Hstate. subst r self'. cbn [of_result].
  unfold pure, print, subscript. cbn [ledger stdout].
  unfold summary_lines. do 2 f_equal. now rewrite <- !app_assoc.
Qed.

(** X12: [cli_get_summary] leaves the ledger as it was.  When
    [get_summary] raises, it raises the same and prints nothing.  When
    [get_summary] returns, it prints five lines: the heading, the three
    values of the summary with two digits after the point, the expense
    behind a minus sign, and the closing rule; the balance is in green
    when it is zero or more and in red otherwise, so also when it is
    NaN. *)
Theorem cli_get_summary_prints_the_summary
    (float_of_str : string -> result float) (w : world) :
  ledger (cli_get_summary float_of_str w).2 = ledger w
  /\ (forall e, (get_summary float_of_str (ledger w)).1 = Raise e ->
        cli_get_summary float_of_str w = (Failed (Builtin e), w))
  /\ (forall s, (get_summary float_of_str (ledger w)).1 = Ok s ->
        exists total_income total_expense net_balance,
          s !! "total_income" = Some total_income
          /\ s !! "total_expense" = Some total_expense
          /\ s !! "net_balance" = Some net_balance
          /\ cli_get_summary float_of_str w
             = (Done tt,
                mkWorld (ledger w)
                  (stdout w
                   ++ [ nl +:+ "--- Financial Summary ---";
                        "Total Income:  " +:+ (esc +:+ "[92m") +:+ "$"
                          +:+ format_2f total_income +:+ (esc +:+ "[0m");
                        "Total Expense: " +:+ (esc +:+ "[91m") +:+ "-$"
                          +:+ format_2f total_expense +:+ (esc +:+ "[0m");
                        "Net Balance:   " +:+ (esc +:+ "[94m")
                          +:+ (if (0 <=? net_balance)%float
                               then esc +:+ "[92m" else esc +:+ "[91m")
                          +:+ "$" +:+ format_2f net_balance +:+ (esc +:+ "[0m");
                        "---------------------------" +:+ nl ]))).
Proof.
  destruct w as [self out]. cbn [ledger stdout].
  unfold cli_get_summary, mbind, CLI_bind, call. cbn [ledger stdout].
  rewrite get_summary_alt. cbn [fst].
  destruct (summary_loop float_of_str (transactions self) (0%float, 0%float))
    as [[ti te]|e0]; cbn [fst snd of_result].
  2:{ split; [done|]. split; [|done]. now intros e [= ->]. }
  destruct (summary_of_totals ti te) as [s|e0] eqn:Hs; cbn [of_result].
  2:{ split; [done|]. split; [|done]. now intros e [= ->]. }
  destruct (summary_of_totals_keys ti te s Hs)
    as (r_income & r_expense & r_net & ->).
  unfold pure, print, subscript. cbn [ledger stdout].
  split; [reflexivity|]. split; [done|].
  intros s [= <-]. exists r_income, r_expense, r_net.
  repeat (split; [reflexivity|]).
  cbn [ledger stdout]. do 2 f_equal. now rewrite <- !app_assoc.
Qed.

Lemma cli_get_summary_prints_the_summary_witness :
  length (stdout (cli_get_summary refuse_text
                    (mkWorld (run_adds two_calls (__init__ None)).2 [])).2)
  = 5%nat.
Proof.
  destruct (cli_get_summary_prints_the_summary refuse_text
              (mkWorld (run_adds two_calls (__init__ None)).2 []))
    as (_ & _ & Hok).
  destruct (Hok _ eq_refl) as (ti & te & nb & _ & _ & _ & Hrun).
  rewrite Hrun. reflexivity.
Defined.

(** X13: [main] works on a ledger of its own, created empty, whatever
    ledger there was: for every subcommand it does not raise and only
    adds to what was printed; at the end its ledger is empty or holds the
    one transaction of an "add" request, with id 1; "view" always prints
    that the ledger is empty and "summary" always prints three zeros. *)
Theorem main_starts_from_a_new_ledger
    (float_of_str : string -> result float) (str_of_float : float -> string)
    (args : namespace) (w : world) :
  (main float_of_str str_of_float args w).1 = Done tt
  /\ (exists lines,
        stdout (main float_of_str str_of_float args w).2 = stdout w ++ lines)
  /\ (ledger (main float_of_str str_of_float args w).2 = __init__ None
      \/ exists tx,
           ledger (main float_of_str str_of_float args w).2 = mkLedger [tx] 2
           /\ tx_id tx = Some 1)
  /\ main float_of_str str_of_float NsView w
     = (Done tt,
        mkWorld (__init__ None)
          (stdout w
           ++ [nl +:+ tab
               +:+ "The ledger is empty. Use 'add' to record a transaction."]))
  /\ main float_of_str str_of_float NsSummary w
     = (Done tt,
        mkWorld (__init__ None)
          (stdout w
           ++ [ nl +:+ "--- Financial Summary ---";
                "Total Income:  " +:+ (esc +:+ "[92m") +:+ "$0.00"
                  +:+ (esc +:+ "[0m");
                "Total Expense: " +:+ (esc +:+ "[91m") +:+ "-$0.00"
                  +:+ (esc +:+ "[0m");
                "Net Balance:   " +:+ (esc +:+ "[94m") +:+ (esc +:+ "[92m")
                  +:+ "$0.00" +:+ (esc +:+ "[0m");
                "---------------------------" +:+ nl ])).
Proof.
  assert (Hview : main float_of_str str_of_float NsView w
                  = (Done tt,
                     mkWorld (__init__ None)
                       (stdout w
                        ++ [nl +:+ tab
                            +:+ "The ledger is empty. Use 'add' to record a transaction."])))
    by reflexivity.
  assert (Hsummary : main float_of_str str_of_float NsSummary w
     = (Done tt,
        mkWorld (__init__ None)
          (stdout w
           ++ [ nl +:+ "--- Financial Summary ---";
                "Total Income:  " +:+ (esc +:+ "[92m") +:+ "$0.00"
                  +:+ (esc +:+ "[0m");
                "Total Expense: " +:+ (esc +:+ "[91m") +:+ "-$0.00"
                  +:+ (esc +:+ "[0m");
                "Net Balance:   " +:+ (esc +:+ "[94m") +:+ (esc +:+ "[92m")
                  +:+ "$0.00" +:+ (esc +:+ "[0m");
                "---------------------------" +:+ nl ]))).
  { unfold main, dispatch.
    now rewrite (cli_get_summary_returns float_of_str _ 0 0 0). }
  split; [|split; [|split; [|split; [exact Hview | exact Hsummary]]]].
  - destruct args as [a| |]; [|now rewrite Hview|now rewrite Hsummary].
    unfold main, dispatch. rewrite cli_add_transaction_unfold.
    destruct (float_of_str (ns_amount a)) as [amount|[msg|msg]]; try done.
    now destruct (amount <=? 0)%float.
  - destruct args as [a| |];
      [|rewrite Hview; eauto|rewrite Hsummary; eauto].
    unfold main, dispatch. rewrite cli_add_transaction_unfold.
    cbn [ledger stdout].
    destruct (float_of_str (ns_amount a)) as [amount|[msg|msg]];
      [|cbn; eauto..].
    destruct (amount <=? 0)%float; cbn; eauto.
  - destruct args as [a| |];
      [|rewrite Hview; auto|rewrite Hsummary; auto].
    unfold main, dispatch. rewrite cli_add_transaction_unfold.
    cbn [ledger stdout].
    destruct (float_of_str (ns_amount a)) as [amount|[msg|msg]];
      [|cbn; auto..].
    destruct (amount <=? 0)%float; cbn [snd ledger]; [auto|].
    right. eexists. split; reflexivity.
Qed.

(** The line of a record built by [add_transaction]: the type padded to
    7 characters and the category to 12, the amount with two digits after
    the point, in green behind "+" when the type is exactly "Income" and
    in red behind "-" for any other type. *)
Lemma format_transaction_of_record
    (float_of_str : string -> result float) (str_of_float : float -> string)
    (id : Z) (type : string) (amount : float) (description category : string) :
  _format_transaction float_of_str str_of_float
    (transaction_record id type amount description category)
  = Done ("ID: " +:+ pretty id +:+ " | "
          +:+ "Type: " +:+ ljust type 7 +:+ " | "
          +:+ "Category: " +:+ ljust category 12 +:+ " | "
          +:+ "Amount: "
          +:+ (if bool_decide (type = "Income")
               then esc +:+ "[92m" else esc +:+ "[91m")
          +:+ (if bool_decide (type = "Income") then "+" else "-")
          +:+ "$" +:+ format_2f amount +:+ (esc +:+ "[0m") +:+ " | "
          +:+ "Description: " +:+ description).
Proof. reflexivity. Qed.
